(** * Sheets agent: the three tools and the command-line session

    A shallow embedding of [sheets_agent.py].  The tools talk to a remote
    spreadsheet service and are driven by an agent runtime; both are
    external, so the service is a record of operations over an abstract
    state and the runtime's [run_sync] is a section variable.  What the file
    itself decides (the order of the requests, the exception handlers, the
    exit test of the session) is modelled as it is written. *)

From Stdlib Require Import List String Ascii Bool ZArith Arith Lia.
Import ListNotations.
Local Open Scope string_scope.

Set Implicit Arguments.

(* ================================================================== *)
(** ** The part of Python the program relies on *)

Module Py.

(** *** Text

    A [str] is a sequence of code points; an [ascii] stands for a code
    point below 256.  [lower] and [isspace] follow [str.lower] and
    [str.isspace] on that range. *)

Definition lower_char (c : ascii) : ascii :=
  let n := nat_of_ascii c in
  if (((65 <=? n) && (n <=? 90))
      || ((192 <=? n) && (n <=? 222) && negb (n =? 215)))%nat
  then ascii_of_nat (n + 32)
  else c.

Fixpoint lower (s : string) : string :=
  match s with
  | EmptyString => EmptyString
  | String c rest => String (lower_char c) (lower rest)
  end.

Definition isspace (c : ascii) : bool :=
  let n := nat_of_ascii c in
  (((9 <=? n) && (n <=? 13)) || ((28 <=? n) && (n <=? 32))
   || (n =? 133) || (n =? 160))%nat.

Fixpoint lstrip (s : string) : string :=
  match s with
  | EmptyString => EmptyString
  | String c rest => if isspace c then lstrip rest else s
  end.

(** [rstrip] drops the longest all-whitespace suffix: a character is kept
    when it is not whitespace or something is kept after it. *)
Fixpoint rstrip (s : string) : string :=
  match s with
  | EmptyString => EmptyString
  | String c rest =>
      match rstrip rest with
      | EmptyString => if isspace c then EmptyString else String c EmptyString
      | kept => String c kept
      end
  end.

Definition strip (s : string) : string := rstrip (lstrip s).

(** The double quote character, for messages that contain one. *)
Definition dquote : string := String (ascii_of_nat 34) EmptyString.

(** *** Exceptions *)

Inductive exc_class : Set :=
| BaseException
| KeyboardInterrupt
| SystemExit
| Exception
| TypeError
| EOFError
| RuntimeError
| OSError
| TimeoutError
| SSLError                  (* ssl.SSLError *)
| GoogleApiError            (* googleapiclient.errors.Error *)
| HttpError                 (* googleapiclient.errors.HttpError *)
| ModelRetry                (* pydantic_ai.exceptions.ModelRetry *)
| AgentRunError             (* pydantic_ai.exceptions.AgentRunError *)
| UnexpectedModelBehavior.  (* pydantic_ai.exceptions.UnexpectedModelBehavior *)

Definition exc_class_eqb (a b : exc_class) : bool :=
  match a, b with
  | BaseException, BaseException
  | KeyboardInterrupt, KeyboardInterrupt
  | SystemExit, SystemExit
  | Exception, Exception
  | TypeError, TypeError
  | EOFError, EOFError
  | RuntimeError, RuntimeError
  | OSError, OSError
  | TimeoutError, TimeoutError
  | SSLError, SSLError
  | GoogleApiError, GoogleApiError
  | HttpError, HttpError
  | ModelRetry, ModelRetry
  | AgentRunError, AgentRunError
  | UnexpectedModelBehavior, UnexpectedModelBehavior => true
  | _, _ => false
  end.

(** The direct base class; [BaseException] is the root. *)
Definition base (c : exc_class) : option exc_class :=
  match c with
  | BaseException => None
  | KeyboardInterrupt | SystemExit | Exception => Some BaseException
  | TypeError | EOFError | RuntimeError | OSError
  | GoogleApiError | ModelRetry => Some Exception
  | TimeoutError | SSLError => Some OSError
  | HttpError => Some GoogleApiError
  | AgentRunError => Some RuntimeError
  | UnexpectedModelBehavior => Some AgentRunError
  end.

Fixpoint issubclass_upto (depth : nat) (c d : exc_class) : bool :=
  exc_class_eqb c d
  || match depth with
     | O => false
     | S depth' =>
         match base c with
         | Some b => issubclass_upto depth' b d
         | None => false
         end
     end.

(** No chain of base classes is longer than five. *)
Definition issubclass : exc_class -> exc_class -> bool := issubclass_upto 5.

(** An exception instance: its class and what [str(e)] gives. *)
Record exn : Set := mk_exn { exn_class : exc_class; str : string }.

Definition isinstance (e : exn) (c : exc_class) : bool :=
  issubclass (exn_class e) c.

Inductive outcome (A : Type) : Type :=
| Returned (a : A)
| Raised (e : exn).
Arguments Returned {A} a.
Arguments Raised {A} e.

(** *** [except] clauses

    The expression after [except] is evaluated to an object, or to a tuple
    of objects.  Before matching, every object is checked to be an
    exception class; if one is not, [TypeError] is raised in place of the
    handler being run. *)

Inductive object : Set :=
| Class (c : exc_class)
| IntEnum (value : Z).

Inductive except_expr : Set :=
| One (o : object)
| Tuple (os : list object).

Definition is_exception_class (o : object) : bool :=
  match o with Class _ => true | IntEnum _ => false end.

Definition matches (e : exn) (o : object) : bool :=
  match o with Class c => isinstance e c | IntEnum _ => false end.

Definition cannot_catch : exn :=
  mk_exn TypeError
    "catching classes that do not inherit from BaseException is not allowed".

Definition exc_match (e : exn) (x : except_expr) : outcome bool :=
  let os := match x with One o => [o] | Tuple os => os end in
  if forallb is_exception_class os
  then Returned (existsb (matches e) os)
  else Raised cannot_catch.

(** [sys.exit(arg)] raises [SystemExit(arg)]; when it reaches the top
    level with a string argument, the interpreter prints the string on
    standard error and the process ends with status 1. *)
Definition sys_exit (arg : string) : exn := mk_exn SystemExit arg.

End Py.
Import Py.

(** [ssl.SSL_ERROR_SSL] is the error number [SSLErrorNumber.SSL_ERROR_SSL],
    an integer enumeration member of value 1; the exception class of the
    module is [ssl.SSLError]. *)
Definition ssl_SSL_ERROR_SSL : object := IntEnum 1.

(* ================================================================== *)
(** ** Data exchanged with the spreadsheet service *)

(** The resources [Spreadsheet], [Sheet] and [SheetProperties] of the
    service's interface, with the fields the tools read: every sheet carries
    ['properties'] with ['sheetId'] and ['title']. *)

Record SheetProperties : Set := { sheetId : Z; title : string }.
Record Sheet : Set := { properties : SheetProperties }.

(** The metadata of a spreadsheet; the key ['sheets'] may be missing. *)
Record Spreadsheet : Set := { sheets : option (list Sheet) }.

Inductive Request : Set :=
| addSheet (new_title : string)     (* {'addSheet': {'properties': {'title': t}}} *)
| deleteSheet (target : Z).         (* {'deleteSheet': {'sheetId': i}} *)

Record BatchUpdateBody : Set := { requests : list Request }.

Inductive Reply : Set :=
| addSheetReply (added : SheetProperties)
| emptyReply.

Record BatchUpdateResponse : Set :=
  { spreadsheetId : string; replies : list Reply }.

(** [dict.get('sheets', [])]. *)
Definition get_sheets (m : Spreadsheet) : list Sheet :=
  match sheets m with Some l => l | None => [] end.

(** What a tool declared to return [Any] hands back: the service's response
    or a message. *)
Inductive tool_value : Set :=
| VResponse (r : BatchUpdateResponse)
| VStr (s : string).

(** Values and dictionaries of [list_sheets]' result, keys in insertion order. *)
Inductive pyval : Set :=
| PyInt (z : Z)
| PyStr (s : string).

Definition dict : Set := list (string * pyval).

Record SheetsResult : Set :=
  { request_status : bool; result_details : string }.

(* ================================================================== *)
(** ** The tools *)

Inductive event : Set :=
| EvPrint (line : string)
| EvGet (spreadsheet : string)
| EvBatchUpdate (spreadsheet : string) (body : BatchUpdateBody)
| EvSleep (seconds : Z).

Definition is_batchUpdate (ev : event) : bool :=
  match ev with EvBatchUpdate _ _ => true | _ => false end.

Section Tools.

(** State of the remote service. *)
Variable St : Type.

(** [spreadsheets().get(spreadsheetId=..).execute()] and
    [spreadsheets().batchUpdate(spreadsheetId=.., body=..).execute()]. *)
Record Resource : Type :=
  { get_execute : string -> St -> outcome Spreadsheet * St;
    batchUpdate_execute :
      string -> BatchUpdateBody -> St -> outcome BatchUpdateResponse * St }.

Record SheetsDependencies : Type :=
  { sheets_service : Resource; spreadsheet_id : string }.

Record RunContext : Type := { deps : SheetsDependencies }.

(** The remote state and what the tool did so far, oldest first. *)
Record World : Type := { remote : St; trace : list event }.

Definition M (A : Type) : Type := World -> outcome A * World.

Definition ret {A} (a : A) : M A := fun w => (Returned a, w).

Definition raise {A} (e : exn) : M A := fun w => (Raised e, w).

Definition bind {A B} (c : M A) (k : A -> M B) : M B :=
  fun w =>
    match c w with
    | (Returned a, w') => k a w'
    | (Raised e, w') => (Raised e, w')
    end.

Definition emit (ev : event) : M unit :=
  fun w => (Returned tt, {| remote := remote w; trace := trace w ++ [ev] |}).

Definition print (line : string) : M unit := emit (EvPrint line).

Definition sleep (seconds : Z) : M unit := emit (EvSleep seconds).

Definition call {A} (ev : event) (op : St -> outcome A * St) : M A :=
  fun w =>
    let (r, s') := op (remote w) in
    (r, {| remote := s'; trace := trace w ++ [ev] |}).

Definition spreadsheets_get (ctx : RunContext) : M Spreadsheet :=
  let d := deps ctx in
  call (EvGet (spreadsheet_id d))
       (get_execute (sheets_service d) (spreadsheet_id d)).

Definition spreadsheets_batchUpdate (ctx : RunContext)
    (body : BatchUpdateBody) : M BatchUpdateResponse :=
  let d := deps ctx in
  call (EvBatchUpdate (spreadsheet_id d) body)
       (batchUpdate_execute (sheets_service d) (spreadsheet_id d) body).

(** [try: body  except x1 as e: h1  except x2 as e: h2 ...]: the clauses
    are tried in order, each one's expression checked when it is reached. *)
Definition clause (A : Type) : Type := (except_expr * (exn -> M A))%type.

Fixpoint dispatch {A} (e : exn) (clauses : list (clause A)) : M A :=
  match clauses with
  | [] => raise e
  | (x, handler) :: rest =>
      match exc_match e x with
      | Raised t => raise t
      | Returned true => handler e
      | Returned false => dispatch e rest
      end
  end.

Definition try_except {A} (body : M A) (clauses : list (clause A)) : M A :=
  fun w =>
    match body w with
    | (Returned a, w') => (Returned a, w')
    | (Raised e, w') => dispatch e clauses w'
    end.

End Tools.

Arguments ret {St A} a.
Arguments raise {St A} e.
Arguments bind {St A B} c k.
Arguments print {St} line.
Arguments sleep {St} seconds.
Arguments Build_World {St} remote trace.
Arguments remote {St} w.
Arguments trace {St} w.

Notation "x <- c ;; k" := (bind c (fun x => k))
  (at level 61, c at next level, right associativity).
Notation "c ;; k" := (bind c (fun _ => k))
  (at level 61, right associativity).

Section ToolBodies.

Variable St : Type.

Definition add_sheet_try (ctx : RunContext St) (sheet_name : string)
  : M St tool_value :=
  print ("Calling add_sheet to add sheet " ++ dquote ++ sheet_name ++ dquote) ;;
  let request_body := {| requests := [addSheet sheet_name] |} in
  response <- spreadsheets_batchUpdate ctx request_body ;;
  sleep 1 ;;
  ret (VResponse response).

(** The two [except] clauses shared by [add_sheet] and [delete_sheet]. *)
Definition string_fallback : clause St tool_value :=
  (Tuple [Class Exception; Class UnexpectedModelBehavior],
   fun e => ret (VStr ("An error occurred: " ++ str e))).

Definition ssl_retry : clause St tool_value :=
  (One ssl_SSL_ERROR_SSL,
   fun e => raise (mk_exn ModelRetry
                     ("An error occurred: " ++ str e ++ ". Please try again."))).

Definition add_sheet (ctx : RunContext St) (sheet_name : string)
  : M St tool_value :=
  try_except (add_sheet_try ctx sheet_name) [string_fallback; ssl_retry].

(** The [for ... break] scan of [delete_sheet]: [sheet_id] of the first
    entry whose title is [sheet_name], [None] when the loop runs out. *)
Fixpoint find_sheet_id (sheet_name : string) (l : list Sheet) : option Z :=
  match l with
  | [] => None
  | sheet :: rest =>
      if String.eqb (title (properties sheet)) sheet_name
      then Some (sheetId (properties sheet))
      else find_sheet_id sheet_name rest
  end.

Definition delete_sheet_try (ctx : RunContext St) (sheet_name : string)
  : M St tool_value :=
  print ("Calling delete_sheet to delete sheet "
           ++ dquote ++ sheet_name ++ dquote) ;;
  sheet_metadata <- spreadsheets_get ctx ;;
  match find_sheet_id sheet_name (get_sheets sheet_metadata) with
  | None =>
      print ("Sheet " ++ sheet_name ++ " not found") ;;
      ret (VStr ("Sheet " ++ sheet_name
                   ++ " is already deleted or does not exist"))
  | Some sheet_id =>
      let request_body := {| requests := [deleteSheet sheet_id] |} in
      response <- spreadsheets_batchUpdate ctx request_body ;;
      ret (VResponse response)
  end.

Definition delete_sheet (ctx : RunContext St) (sheet_name : string)
  : M St tool_value :=
  try_except (delete_sheet_try ctx sheet_name) [string_fallback; ssl_retry].

Definition descriptor (sheet : Sheet) : dict :=
  [("id", PyInt (sheetId (properties sheet)));
   ("name", PyStr (title (properties sheet)))].

Definition list_sheets_try (ctx : RunContext St) : M St (list dict) :=
  print "Calling list_sheets" ;;
  sheet_metadata <- spreadsheets_get ctx ;;
  let sheets := get_sheets sheet_metadata in
  match sheets with
  | [] => ret []
  | _ => let sheet_list := map descriptor sheets in ret sheet_list
  end.

Definition list_sheets (ctx : RunContext St) : M St (list dict) :=
  try_except (list_sheets_try ctx)
    [(Tuple [Class Exception; ssl_SSL_ERROR_SSL],
      fun e => raise (mk_exn ModelRetry
                        ("An error occurred: " ++ str e
                           ++ ". Please try again.")))].

(** The requests a run has sent to [batchUpdate]. *)
Definition structural_changes (w : World St) : list event :=
  filter is_batchUpdate (trace w).

End ToolBodies.

(** Names for what the tools send and print. *)

Definition add_body (sheet_name : string) : BatchUpdateBody :=
  {| requests := [addSheet sheet_name] |}.

Definition delete_body (sheet_id : Z) : BatchUpdateBody :=
  {| requests := [deleteSheet sheet_id] |}.

Definition add_banner (sheet_name : string) : string :=
  "Calling add_sheet to add sheet " ++ dquote ++ sheet_name ++ dquote.

Definition delete_banner (sheet_name : string) : string :=
  "Calling delete_sheet to delete sheet " ++ dquote ++ sheet_name ++ dquote.

(* ================================================================== *)
(** ** The command-line session *)

Definition SPREADSHEET_ID : string :=
  "1PS0vkTA3spWI1AxepP3zhfztt1ps_xw2SeZVA_gjyL0".

Definition newline : string := String (ascii_of_nat 10) EmptyString.

Section Session.

Variable St : Type.

(** The agent runtime: its state [W] (the model, the registered tools and
    the service behind them), its messages, and one synchronous run. *)
Variable W : Type.
Variable Message : Type.

Record AgentRunResult : Type :=
  { data : SheetsResult; all_messages : list Message }.

Variable run_sync :
  string -> SheetsDependencies St -> option (list Message) ->
  W -> outcome AgentRunResult * W.

(** [str] of a [SheetsResult], as the model class prints it. *)
Variable str_SheetsResult : SheetsResult -> string.

(** The handle [init_google_sheets_client()] returns. *)
Variable service : Resource St.

Definition session_deps : SheetsDependencies St :=
  {| sheets_service := service; spreadsheet_id := SPREADSHEET_ID |}.

Record Process : Type := { runtime : W; stdout : list string }.

Definition write (text : string) (p : Process) : Process :=
  {| runtime := runtime p; stdout := stdout p ++ [text] |}.

Definition print_line (text : string) (p : Process) : Process :=
  write (text ++ newline) p.

(** What follows [prompt = input('User: ')]: the exit test on the line as
    read, then one run of the agent on the stripped line. *)
Definition turn (prompt : string) (message_history : option (list Message))
    (p : Process) : outcome AgentRunResult * Process :=
  if String.eqb (lower prompt) "exit"
  then (Raised (sys_exit "See you next time"), p)
  else
    let (r, w') := run_sync (strip prompt) session_deps message_history
                     (runtime p) in
    (r, {| runtime := w'; stdout := stdout p |}).

(** How the process ends: the exception that reaches the top level, the
    state it leaves, and the lines of standard input never read. *)
Record Ended : Type :=
  { reason : exn; final : Process; unread : list string }.

Definition end_of_input : exn := mk_exn EOFError "EOF when reading a line".

(** [while True:], one iteration per line of standard input. *)
Fixpoint loop (stdin : list string) (response : AgentRunResult)
    (p : Process) : Ended :=
  match stdin with
  | [] => {| reason := end_of_input; final := write "User: " p; unread := [] |}
  | prompt :: rest =>
      match turn prompt (Some (all_messages response)) (write "User: " p) with
      | (Raised e, p') => {| reason := e; final := p'; unread := rest |}
      | (Returned response', p') =>
          loop rest response'
            (print_line ("Sheets agent: " ++ result_details (data response')) p')
      end
  end.

(** The [__main__] block once [service] and [deps] are set up: the first
    turn has no message history and prints the whole result. *)
Definition main (stdin : list string) (p : Process) : Ended :=
  match stdin with
  | [] => {| reason := end_of_input; final := write "User: " p; unread := [] |}
  | prompt :: rest =>
      match turn prompt None (write "User: " p) with
      | (Raised e, p') => {| reason := e; final := p'; unread := rest |}
      | (Returned response, p') =>
          loop rest response
            (print_line ("Sheet agent: " ++ str_SheetsResult (data response)) p')
      end
  end.

End Session.

(** *** Spellings of a word that differ only in the case of ASCII letters *)

Definition upper_ascii_letter (c : ascii) : ascii :=
  let n := nat_of_ascii c in
  if ((97 <=? n) && (n <=? 122))%nat then ascii_of_nat (n - 32) else c.

Definition is_ascii_letter (c : ascii) : bool :=
  let n := nat_of_ascii c in
  (((65 <=? n) && (n <=? 90)) || ((97 <=? n) && (n <=? 122)))%nat.

Definition swapped_case (c : ascii) : ascii :=
  let n := nat_of_ascii c in
  if ((65 <=? n) && (n <=? 90))%nat then ascii_of_nat (n + 32)
  else upper_ascii_letter c.

Fixpoint case_variants (word : string) : list string :=
  match word with
  | EmptyString => [EmptyString]
  | String c rest =>
      let tails := case_variants rest in
      if is_ascii_letter c
      then map (String c) tails ++ map (String (swapped_case c)) tails
      else map (String c) tails
  end.

Fixpoint blank (s : string) : bool :=
  match s with
  | EmptyString => true
  | String c rest => isspace c && blank rest
  end.

(* ================================================================== *)
(** ** Stand-ins for the remote service *)

Module InMemory.

(** A spreadsheet held in memory: sheet titles are unique, identifiers are
    handed out in increasing order, and the last sheet cannot be removed. *)
Record Book : Set :=
  { book_id : string; book_sheets : list SheetProperties; next_id : Z }.

Definition http_error (msg : string) : exn := mk_exn HttpError msg.

Definition has_title (t : string) (p : SheetProperties) : bool :=
  String.eqb (title p) t.

Definition has_id (i : Z) (p : SheetProperties) : bool :=
  Z.eqb (sheetId p) i.

Definition apply_request (r : Request) (b : Book) : outcome (Reply * Book) :=
  match r with
  | addSheet t =>
      if existsb (has_title t) (book_sheets b)
      then Raised (http_error "A sheet with that name already exists")
      else
        let p := {| sheetId := next_id b; title := t |} in
        Returned (addSheetReply p,
                  {| book_id := book_id b;
                     book_sheets := book_sheets b ++ [p];
                     next_id := (next_id b + 1)%Z |})
  | deleteSheet i =>
      if negb (existsb (has_id i) (book_sheets b))
      then Raised (http_error "No sheet with that id")
      else if (List.length (book_sheets b) <=? 1)%nat
      then Raised (http_error "Cannot remove all the sheets of a document")
      else
        Returned (emptyReply,
                  {| book_id := book_id b;
                     book_sheets :=
                       filter (fun p => negb (has_id i p)) (book_sheets b);
                     next_id := next_id b |})
  end.

(** A batch is applied as a whole or not at all. *)
Fixpoint apply_requests (rs : list Request) (b : Book)
  : outcome (list Reply * Book) :=
  match rs with
  | [] => Returned ([], b)
  | r :: rest =>
      match apply_request r b with
      | Raised e => Raised e
      | Returned (reply, b') =>
          match apply_requests rest b' with
          | Raised e => Raised e
          | Returned (more, b'') => Returned (reply :: more, b'')
          end
      end
  end.

Definition get (id : string) (b : Book) : outcome Spreadsheet * Book :=
  if String.eqb id (book_id b)
  then (Returned
          {| sheets := Some (map (fun p => {| properties := p |})
                                 (book_sheets b)) |}, b)
  else (Raised (http_error "Requested entity was not found"), b).

Definition batchUpdate (id : string) (body : BatchUpdateBody) (b : Book)
  : outcome BatchUpdateResponse * Book :=
  if String.eqb id (book_id b)
  then
    match apply_requests (requests body) b with
    | Returned (rs, b') =>
        (Returned {| spreadsheetId := id; replies := rs |}, b')
    | Raised e => (Raised e, b)
    end
  else (Raised (http_error "Requested entity was not found"), b).

Definition service : Resource Book :=
  {| get_execute := get; batchUpdate_execute := batchUpdate |}.

Definition ctx (id : string) : RunContext Book :=
  {| deps := {| sheets_service := service; spreadsheet_id := id |} |}.

Definition start (b : Book) : World Book := {| remote := b; trace := [] |}.

Definition two_sheets : Book :=
  {| book_id := "book";
     book_sheets := [ {| sheetId := 1; title := "Sheet1" |};
                      {| sheetId := 2; title := "Sheet2" |} ];
     next_id := 3 |}.

End InMemory.

Module Unavailable.

(** A service whose every request fails with the same exception. *)
Definition service (e : exn) : Resource unit :=
  {| get_execute := fun _ s => (Raised e, s);
     batchUpdate_execute := fun _ _ s => (Raised e, s) |}.

Definition ctx (e : exn) : RunContext unit :=
  {| deps := {| sheets_service := service e; spreadsheet_id := "book" |} |}.

Definition start : World unit := {| remote := tt; trace := [] |}.

End Unavailable.

Module Scripted.

(** An agent runtime that only records the prompts it is run on and
    answers each with the same result. *)
Definition answer : AgentRunResult string :=
  {| data := {| request_status := true; result_details := "done" |};
     all_messages := [] |}.

Definition run_sync (prompt : string) (d : SheetsDependencies unit)
    (history : option (list string)) (seen : list string)
  : outcome (AgentRunResult string) * list string :=
  (Returned answer, (seen ++ [prompt])%list).

Definition str_SheetsResult (r : SheetsResult) : string := result_details r.

Definition start : Process (list string) :=
  {| runtime := []; stdout := [] |}.

End Scripted.

(** Inputs used to run the tools. *)

(** A spreadsheet in which two sheets share the title "X". *)
Definition with_twins : InMemory.Book :=
  {| InMemory.book_id := "book";
     InMemory.book_sheets := [ {| sheetId := 1; title := "A" |};
                               {| sheetId := 7; title := "X" |};
                               {| sheetId := 9; title := "X" |} ];
     InMemory.next_id := 10 |}.

Definition no_sheets : InMemory.Book :=
{| InMemory.book_id := "book"; InMemory.book_sheets := []; InMemory.next_id := 0 |}.

Definition tls_failure : exn :=
  mk_exn SSLError "EOF occurred in violation of protocol".

Definition interrupt : exn := mk_exn KeyboardInterrupt EmptyString.

Definition not_found_404 : exn :=
  mk_exn HttpError "Requested entity was not found".

Definition one_sheet : InMemory.Book :=
{| InMemory.book_id := "book";
   InMemory.book_sheets := [ {| sheetId := 1; title := "Sheet1" |} ];
   InMemory.next_id := 2 |}.

(** The exit test of the session, on a line as read. *)
Definition is_exit (line : string) : bool := String.eqb (lower line) "exit".

Definition no_exit (lines : list string) : bool :=
  forallb (fun line => negb (is_exit line)) lines.

(** *** Observing what a session hands to the runtime and prints *)

Section Logged.

Variables St W Message : Type.

Record Call : Type :=
  { call_prompt : string;
    call_deps : SheetsDependencies St;
    call_history : option (list Message);
    call_outcome : outcome (AgentRunResult Message) }.

Variable run_sync :
  string -> SheetsDependencies St -> option (list Message) ->
  W -> outcome (AgentRunResult Message) * W.

Variable str_SheetsResult : SheetsResult -> string.

(** [run_sync] with a record of every call appended to the state. *)
Definition logged (prompt : string) (d : SheetsDependencies St)
    (history : option (list Message)) (wl : W * list Call)
  : outcome (AgentRunResult Message) * (W * list Call) :=
  let (r, w') := run_sync prompt d history (fst wl) in
  (r, (w', (snd wl ++ [ {| call_prompt := prompt;
                           call_deps := d;
                           call_history := history;
                           call_outcome := r |} ])%list)).

(** Each call gets the messages of the run before it, and nothing follows
    a run that raised. *)
Fixpoint threaded (previous : option (list Message)) (calls : list Call)
  : Prop :=
  match calls with
  | [] => True
  | c :: rest =>
      call_history c = previous
      /\ match call_outcome c with
         | Returned r => threaded (Some (all_messages r)) rest
         | Raised _ => rest = []
         end
  end.

(** What the two [print] calls of the session write for a result. *)
Definition reply_line (first : bool) (r : AgentRunResult Message) : string :=
  (if first
   then "Sheet agent: " ++ str_SheetsResult (data r)
   else "Sheets agent: " ++ result_details (data r)) ++ newline.

(** Standard output for a sequence of runs: the prompt before each line
    read, the reply after each run that returned, and the prompt of the
    read that ended the session unless a run raised. *)
Fixpoint transcript (first : bool) (calls : list Call) : list string :=
  match calls with
  | [] => ["User: "]
  | c :: rest =>
      match call_outcome c with
      | Returned r => "User: " :: reply_line first r :: transcript false rest
      | Raised _ => ["User: "]
      end
  end.

End Logged.

Unset Implicit Arguments.

(* ================================================================== *)
(** ** Exception handling of the tools *)

Ltac run_tool :=
  unfold try_except, bind, print, sleep, emit, ret, raise,
    spreadsheets_get, spreadsheets_batchUpdate, call; simpl.

Lemma subclass_of_Exception (c : exc_class) :
  issubclass c UnexpectedModelBehavior = true -> issubclass c Exception = true.
Proof. destruct c; simpl; intros H; try reflexivity; discriminate H. Qed.

Lemma SSLError_is_Exception (e : exn) :
  isinstance e SSLError = true -> isinstance e Exception = true.
Proof.
  unfold isinstance. destruct (exn_class e); simpl; intros H;
    try reflexivity; discriminate H.
Qed.

Section Handlers.

Variable St : Type.
Implicit Types (e : exn) (w : World St).

(** The first clause of [add_sheet] and [delete_sheet] takes every
    instance of [Exception]. *)
Lemma fallback_catches e w :
  isinstance e Exception = true ->
  dispatch e [string_fallback St; ssl_retry St] w
  = (Returned (VStr ("An error occurred: " ++ str e)), w).
Proof.
  intros He. unfold dispatch, string_fallback, exc_match. simpl.
  rewrite He. reflexivity.
Qed.

(** Anything else reaches the second clause, whose expression is not an
    exception class. *)
Lemma fallback_passes e w :
  isinstance e Exception = false ->
  dispatch e [string_fallback St; ssl_retry St] w = (Raised cannot_catch, w).
Proof.
  intros He. unfold dispatch, string_fallback, ssl_retry, exc_match. simpl.
  rewrite He.
  destruct (isinstance e UnexpectedModelBehavior) eqn:Hu.
  - apply subclass_of_Exception in Hu. unfold isinstance in He. congruence.
  - reflexivity.
Qed.

Lemma guarded_outcome (body : M St tool_value) w :
  try_except body [string_fallback St; ssl_retry St] w
  = match body w with
    | (Returned v, w') => (Returned v, w')
    | (Raised e, w') =>
        if isinstance e Exception
        then (Returned (VStr ("An error occurred: " ++ str e)), w')
        else (Raised cannot_catch, w')
    end.
Proof.
  unfold try_except. destruct (body w) as [[v | e] w']; [reflexivity |].
  destruct (isinstance e Exception) eqn:He.
  - now apply fallback_catches.
  - now apply fallback_passes.
Qed.

(** The clause of [list_sheets] names an object that is not an exception
    class, so reaching it raises [TypeError] whatever was raised. *)
Lemma list_clause_rejected (body : M St (list dict)) e w w' :
  body w = (Raised e, w') ->
  try_except body
    [(Tuple [Class Exception; ssl_SSL_ERROR_SSL],
      fun e => raise (mk_exn ModelRetry
                        ("An error occurred: " ++ str e
                           ++ ". Please try again.")))] w
  = (Raised cannot_catch, w').
Proof. intros Hb. unfold try_except. rewrite Hb. reflexivity. Qed.

End Handlers.

Section ToolFacts.

Variable St : Type.
Variable ctx : RunContext St.
Implicit Types (w : World St) (sheet_name : string).

Let d := deps ctx.
Let book := spreadsheet_id d.

(** C4. A call of [add_sheet] that the service answers sends one
    [batchUpdate] with the single request [addSheet] carrying the given
    title, then sleeps for 1 second, then returns the service's response
    unchanged; when the request fails with an error, the call returns
    the text "An error occurred: " followed by the error's message.  The
    code puts no condition on the name, so this holds for the empty name
    as well. *)
Theorem add_sheet_single_request sheet_name w :
  (forall response s',
      batchUpdate_execute (sheets_service d) book (add_body sheet_name)
        (remote w) = (Returned response, s') ->
      add_sheet ctx sheet_name w
      = (Returned (VResponse response),
         {| remote := s';
            trace := trace w ++ [EvPrint (add_banner sheet_name);
                                 EvBatchUpdate book (add_body sheet_name);
                                 EvSleep 1] |})
      /\ structural_changes (snd (add_sheet ctx sheet_name w))
         = (structural_changes w
              ++ [EvBatchUpdate book (add_body sheet_name)])%list)
  /\ (forall e s',
         batchUpdate_execute (sheets_service d) book (add_body sheet_name)
           (remote w) = (Raised e, s') ->
         isinstance e Exception = true ->
         add_sheet ctx sheet_name w
         = (Returned (VStr ("An error occurred: " ++ str e)),
            {| remote := s';
               trace := trace w ++ [EvPrint (add_banner sheet_name);
                                    EvBatchUpdate book (add_body sheet_name)] |})).
Proof.
  split.
  - intros response s' Hcall.
    assert (Hrun : add_sheet ctx sheet_name w
                   = (Returned (VResponse response),
                      {| remote := s';
                         trace := trace w ++ [EvPrint (add_banner sheet_name);
                                              EvBatchUpdate book (add_body sheet_name);
                                              EvSleep 1] |})).
    { unfold add_sheet, add_sheet_try. run_tool.
      fold d. fold book. unfold add_body in Hcall. rewrite Hcall. simpl.
      rewrite <- !app_assoc. reflexivity. }
    split; [exact Hrun |].
    rewrite Hrun. unfold structural_changes. simpl. rewrite filter_app. reflexivity.
  - intros e s' Hcall He.
    unfold add_sheet. rewrite guarded_outcome.
    unfold add_sheet_try. run_tool.
    fold d. fold book. unfold add_body in Hcall. rewrite Hcall. simpl.
    rewrite He. rewrite <- !app_assoc. reflexivity.
Qed.

End ToolFacts.

(* ================================================================== *)
(** ** The scan of [delete_sheet] *)

Lemma find_sheet_id_none (sheet_name : string) (l : list Sheet) :
  (forall sheet, In sheet l -> title (properties sheet) <> sheet_name) ->
  find_sheet_id sheet_name l = None.
Proof.
  induction l as [| sheet rest IH]; intros Hno; simpl; [reflexivity |].
  destruct (String.eqb_spec (title (properties sheet)) sheet_name) as [Heq | _].
  - exfalso. apply (Hno sheet); [now left | exact Heq].
  - apply IH. intros other Hin. apply Hno. now right.
Qed.

Lemma find_sheet_id_first (sheet_name : string) (before after : list Sheet)
    (sheet : Sheet) :
  (forall earlier, In earlier before ->
                   title (properties earlier) <> sheet_name) ->
  title (properties sheet) = sheet_name ->
  find_sheet_id sheet_name (before ++ sheet :: after)
  = Some (sheetId (properties sheet)).
Proof.
  intros Hno Hhit. induction before as [| b before' IH]; simpl.
  - rewrite Hhit, String.eqb_refl. reflexivity.
  - destruct (String.eqb_spec (title (properties b)) sheet_name) as [Heq | _].
    + exfalso. apply (Hno b); [now left | exact Heq].
    + apply IH. intros earlier Hin. apply Hno. now right.
Qed.

(** A list holding a sheet of the given title splits at the first one. *)
Lemma first_titled (sheet_name : string) (l : list Sheet) :
  (exists sheet, In sheet l /\ title (properties sheet) = sheet_name) ->
  exists before sheet after,
    l = (before ++ sheet :: after)%list
    /\ (forall earlier, In earlier before ->
                        title (properties earlier) <> sheet_name)
    /\ title (properties sheet) = sheet_name.
Proof.
  induction l as [| x rest IH]; intros [sheet [Hin Ht]]; [destruct Hin |].
  destruct (String.eqb_spec (title (properties x)) sheet_name) as [Hx | Hx].
  - exists [], x, rest. repeat split; [intros ? [] | exact Hx].
  - destruct Hin as [-> | Hin]; [contradiction |].
    destruct IH as (before & hit & after & Hl & Hno & Hhit);
      [now exists sheet |].
    exists (x :: before), hit, after. subst rest. repeat split; [| exact Hhit].
    intros earlier [<- | Hin']; [exact Hx | now apply Hno].
Qed.

Section DeleteAndList.

Variable St : Type.
Variable ctx : RunContext St.
Implicit Types (w : World St) (sheet_name : string).

Let d := deps ctx.
Let book := spreadsheet_id d.

Lemma delete_sheet_absent_run sheet_name w md s1 :
  get_execute (sheets_service d) book (remote w) = (Returned md, s1) ->
  find_sheet_id sheet_name (get_sheets md) = None ->
  delete_sheet ctx sheet_name w
  = (Returned (VStr ("Sheet " ++ sheet_name
                       ++ " is already deleted or does not exist")),
     {| remote := s1;
        trace := trace w ++ [EvPrint (delete_banner sheet_name);
                             EvGet book;
                             EvPrint ("Sheet " ++ sheet_name
                                        ++ " not found")] |}).
Proof.
  intros Hget Hnone.
  unfold delete_sheet, delete_sheet_try. run_tool.
  fold d. fold book. rewrite Hget. simpl. rewrite Hnone. simpl.
  rewrite <- !app_assoc. reflexivity.
Qed.

(** C2. When the metadata fetched by [delete_sheet] holds no sheet of the
    given title, the call returns (it does not raise) the text
    "Sheet <name> is already deleted or does not exist", sends nothing
    to [batchUpdate], and leaves the remote state as the fetch left it.
    In particular this is the result of a second call that follows a first
    one, whenever the metadata fetched by the second call no longer holds
    the title. *)
Theorem delete_sheet_absent sheet_name :
  (forall w md s1,
      get_execute (sheets_service d) book (remote w) = (Returned md, s1) ->
      (forall sheet, In sheet (get_sheets md) ->
                     title (properties sheet) <> sheet_name) ->
      delete_sheet ctx sheet_name w
      = (Returned (VStr ("Sheet " ++ sheet_name
                           ++ " is already deleted or does not exist")),
         {| remote := s1;
            trace := trace w ++ [EvPrint (delete_banner sheet_name);
                                 EvGet book;
                                 EvPrint ("Sheet " ++ sheet_name
                                            ++ " not found")] |})
      /\ structural_changes (snd (delete_sheet ctx sheet_name w))
         = structural_changes w)
  /\ (forall w first w1 md s2,
         delete_sheet ctx sheet_name w = (first, w1) ->
         get_execute (sheets_service d) book (remote w1) = (Returned md, s2) ->
         (forall sheet, In sheet (get_sheets md) ->
                        title (properties sheet) <> sheet_name) ->
         fst (delete_sheet ctx sheet_name w1)
         = Returned (VStr ("Sheet " ++ sheet_name
                             ++ " is already deleted or does not exist"))
         /\ remote (snd (delete_sheet ctx sheet_name w1)) = s2
         /\ structural_changes (snd (delete_sheet ctx sheet_name w1))
            = structural_changes w1).
Proof.
  assert (Hone : forall w md s1,
             get_execute (sheets_service d) book (remote w)
             = (Returned md, s1) ->
             (forall sheet, In sheet (get_sheets md) ->
                            title (properties sheet) <> sheet_name) ->
             delete_sheet ctx sheet_name w
             = (Returned (VStr ("Sheet " ++ sheet_name
                                  ++ " is already deleted or does not exist")),
                {| remote := s1;
                   trace := trace w ++ [EvPrint (delete_banner sheet_name);
                                        EvGet book;
                                        EvPrint ("Sheet " ++ sheet_name
                                                   ++ " not found")] |})).
  { intros w md s1 Hget Hno.
    apply delete_sheet_absent_run with md; [exact Hget |].
    now apply find_sheet_id_none. }
  assert (Hquiet : forall w md s1,
             get_execute (sheets_service d) book (remote w)
             = (Returned md, s1) ->
             (forall sheet, In sheet (get_sheets md) ->
                            title (properties sheet) <> sheet_name) ->
             structural_changes (snd (delete_sheet ctx sheet_name w))
             = structural_changes w).
  { intros w md s1 Hget Hno. rewrite (Hone w md s1 Hget Hno).
    unfold structural_changes. simpl. rewrite filter_app. simpl.
    apply app_nil_r. }
  split.
  - intros w md s1 Hget Hno. split; [now apply (Hone w md s1) | now apply (Hquiet w md s1)].
  - intros w first w1 md s2 _ Hget Hno.
    rewrite (Hone w1 md s2 Hget Hno). simpl.
    repeat split. rewrite <- (Hquiet w1 md s2 Hget Hno).
    rewrite (Hone w1 md s2 Hget Hno). reflexivity.
Qed.

(** C3. When the fetched metadata holds a sheet of the given title,
    the list splits at the first such sheet (nothing before it has the
    title; later sheets of the same title play no part), [delete_sheet]
    sends exactly one [batchUpdate], whose single request is
    [deleteSheet] with that sheet's identifier, and returns the service's
    response to it. *)
Theorem delete_sheet_first_match sheet_name w md s1 :
  get_execute (sheets_service d) book (remote w) = (Returned md, s1) ->
  (exists sheet, In sheet (get_sheets md)
                 /\ title (properties sheet) = sheet_name) ->
  exists before sheet after,
    get_sheets md = (before ++ sheet :: after)%list
    /\ (forall earlier, In earlier before ->
                        title (properties earlier) <> sheet_name)
    /\ title (properties sheet) = sheet_name
    /\ find_sheet_id sheet_name (get_sheets md)
       = Some (sheetId (properties sheet))
    /\ structural_changes (snd (delete_sheet ctx sheet_name w))
       = (structural_changes w
            ++ [EvBatchUpdate book
                  (delete_body (sheetId (properties sheet)))])%list
    /\ forall response s2,
        batchUpdate_execute (sheets_service d) book
          (delete_body (sheetId (properties sheet))) s1
        = (Returned response, s2) ->
        delete_sheet ctx sheet_name w
        = (Returned (VResponse response),
           {| remote := s2;
              trace := trace w
                         ++ [EvPrint (delete_banner sheet_name);
                             EvGet book;
                             EvBatchUpdate book
                               (delete_body (sheetId (properties sheet)))] |}).
Proof.
  intros Hget Hsome.
  destruct (first_titled _ _ Hsome) as (before & sheet & after & Hl & Hno & Hhit).
  exists before, sheet, after.
  assert (Hfind : find_sheet_id sheet_name (get_sheets md)
                  = Some (sheetId (properties sheet))).
  { rewrite Hl. now apply find_sheet_id_first. }
  repeat split; try assumption.
  - unfold delete_sheet. rewrite guarded_outcome.
    unfold delete_sheet_try. run_tool.
    fold d. fold book. rewrite Hget. simpl. rewrite Hfind. simpl.
    match goal with
    | |- context [batchUpdate_execute ?svc ?id ?body ?s] =>
        destruct (batchUpdate_execute svc id body s) as [[response | e] s2]
    end; simpl.
    + unfold structural_changes. simpl. rewrite <- !app_assoc.
      rewrite filter_app. reflexivity.
    + destruct (isinstance e Exception); unfold structural_changes; simpl;
        rewrite <- !app_assoc; rewrite filter_app; reflexivity.
  - intros response s2 Hcall.
    unfold delete_sheet, delete_sheet_try. run_tool.
    fold d. fold book. rewrite Hget. simpl. rewrite Hfind. simpl.
    unfold delete_body in Hcall. rewrite Hcall. simpl.
    rewrite <- !app_assoc. reflexivity.
Qed.

(** C5. Whatever metadata the service returns, [list_sheets] returns one
    dictionary per sheet, [{'id': sheetId, 'name': title}], in the order
    of the metadata; for the sheets (1, "Sheet1"), (2, "Sheet2") the
    result is [{'id': 1, 'name': 'Sheet1'}, {'id': 2, 'name': 'Sheet2'}]. *)
Theorem list_sheets_projects_in_order :
  (forall w md s1,
      get_execute (sheets_service d) book (remote w) = (Returned md, s1) ->
      list_sheets ctx w
      = (Returned (map (fun sheet =>
                          [("id", PyInt (sheetId (properties sheet)));
                           ("name", PyStr (title (properties sheet)))])
                       (get_sheets md)),
         {| remote := s1;
            trace := trace w ++ [EvPrint "Calling list_sheets";
                                 EvGet book] |}))
  /\ fst (list_sheets (InMemory.ctx "book")
            (InMemory.start InMemory.two_sheets))
     = Returned [[("id", PyInt 1); ("name", PyStr "Sheet1")];
                 [("id", PyInt 2); ("name", PyStr "Sheet2")]].
Proof.
  split; [| reflexivity].
  intros w md s1 Hget.
  unfold list_sheets, list_sheets_try. run_tool.
  fold d. fold book. rewrite Hget. simpl.
  destruct (get_sheets md) as [| sheet rest]; simpl;
    rewrite <- !app_assoc; reflexivity.
Qed.

(** C6. When the fetched metadata has no sheets (the key is missing or
    its list is empty), [list_sheets] returns the empty list and does not
    raise. *)
Theorem list_sheets_empty w md s1 :
  get_execute (sheets_service d) book (remote w) = (Returned md, s1) ->
  sheets md = None \/ sheets md = Some [] ->
  list_sheets ctx w
  = (Returned [],
     {| remote := s1;
        trace := trace w ++ [EvPrint "Calling list_sheets"; EvGet book] |}).
Proof.
  intros Hget Hempty.
  assert (Hnil : get_sheets md = []).
  { unfold get_sheets. destruct Hempty as [-> | ->]; reflexivity. }
  unfold list_sheets, list_sheets_try. run_tool.
  fold d. fold book. rewrite Hget. simpl. rewrite Hnil. simpl.
  rewrite <- !app_assoc. reflexivity.
Qed.

End DeleteAndList.

(* ================================================================== *)
(** ** What the tools do with an exception *)

Section Failures.

Variable St : Type.
Variable ctx : RunContext St.
Implicit Types (w : World St) (sheet_name : string) (e : exn).

(** C1, as the code behaves.  An [ssl.SSLError] raised anywhere inside
    the [try] of [add_sheet] or [delete_sheet] is taken by the first
    [except] clause: the call returns "An error occurred: <message>" at
    once and raises nothing, so no [ModelRetry] reaches the agent
    runtime and the runtime has no retry to count. *)
Theorem transport_failure_returned_as_text sheet_name w e w' :
  isinstance e SSLError = true ->
  (add_sheet_try ctx sheet_name w = (Raised e, w') ->
   add_sheet ctx sheet_name w
   = (Returned (VStr ("An error occurred: " ++ str e)), w'))
  /\ (delete_sheet_try ctx sheet_name w = (Raised e, w') ->
      delete_sheet ctx sheet_name w
      = (Returned (VStr ("An error occurred: " ++ str e)), w')).
Proof.
  intros Hssl. apply SSLError_is_Exception in Hssl.
  split; intros Hbody.
  - unfold add_sheet. rewrite guarded_outcome, Hbody, Hssl. reflexivity.
  - unfold delete_sheet. rewrite guarded_outcome, Hbody, Hssl. reflexivity.
Qed.

(** C7, as the code behaves.  Whatever exception the [try] of
    [list_sheets] raises, the call raises [TypeError] ("catching classes
    that do not inherit from BaseException is not allowed"): the [except]
    tuple names the integer [ssl.SSL_ERROR_SSL], so the handler that would
    raise [ModelRetry] is never entered. *)
Theorem list_sheets_failure_raises_TypeError w e w' :
  list_sheets_try ctx w = (Raised e, w') ->
  list_sheets ctx w = (Raised cannot_catch, w')
  /\ exn_class cannot_catch = TypeError
  /\ isinstance cannot_catch ModelRetry = false.
Proof.
  intros Hbody. repeat split.
  unfold list_sheets. now apply list_clause_rejected with e.
Qed.

(** C9, amended.  Every instance of [Exception] raised inside the [try]
    of [add_sheet] or [delete_sheet], [ssl.SSLError] among them, is
    taken by the first [except] clause, which returns
    "An error occurred: <message>".  The handler of the second clause is
    never entered: neither tool raises [ModelRetry], and a tool raises
    at all only when its [try] raised something that is not an instance of
    [Exception]. *)
Theorem generic_handler_shadows_retry sheet_name w :
  (forall e w',
      isinstance e Exception = true ->
      (add_sheet_try ctx sheet_name w = (Raised e, w') ->
       add_sheet ctx sheet_name w
       = (Returned (VStr ("An error occurred: " ++ str e)), w'))
      /\ (delete_sheet_try ctx sheet_name w = (Raised e, w') ->
          delete_sheet ctx sheet_name w
          = (Returned (VStr ("An error occurred: " ++ str e)), w')))
  /\ (forall e, isinstance e SSLError = true ->
                 isinstance e Exception = true)
  /\ (forall raised w',
         add_sheet ctx sheet_name w = (Raised raised, w')
         \/ delete_sheet ctx sheet_name w = (Raised raised, w') ->
         exn_class raised <> ModelRetry)
  /\ (forall raised w',
         add_sheet ctx sheet_name w = (Raised raised, w') ->
         exists e, add_sheet_try ctx sheet_name w = (Raised e, w')
                   /\ isinstance e Exception = false)
  /\ (forall raised w',
         delete_sheet ctx sheet_name w = (Raised raised, w') ->
         exists e, delete_sheet_try ctx sheet_name w = (Raised e, w')
                   /\ isinstance e Exception = false).
Proof.
  assert (Hraise : forall (body : M St tool_value) raised w',
             try_except body [string_fallback St; ssl_retry St] w
             = (Raised raised, w') ->
             raised = cannot_catch
             /\ exists e, body w = (Raised e, w')
                          /\ isinstance e Exception = false).
  { intros body raised w' Hrun. rewrite guarded_outcome in Hrun.
    destruct (body w) as [[v | e] w0]; [discriminate Hrun |].
    destruct (isinstance e Exception) eqn:He; [discriminate Hrun |].
    injection Hrun as <- <-. split; [reflexivity |]. now exists e. }
  split; [| split; [| split; [| split]]].
  - intros e w' He. split; intros Hbody.
    + unfold add_sheet. rewrite guarded_outcome, Hbody, He. reflexivity.
    + unfold delete_sheet. rewrite guarded_outcome, Hbody, He. reflexivity.
  - exact SSLError_is_Exception.
  - intros raised w' [Hrun | Hrun]; apply Hraise in Hrun as [-> _];
      discriminate.
  - intros raised w' Hrun. now apply Hraise in Hrun as [_ Hbody].
  - intros raised w' Hrun. now apply Hraise in Hrun as [_ Hbody].
Qed.

End Failures.

(* ================================================================== *)
(** ** Text lemmas for the exit test *)

Lemma length_append (a b : string) :
  String.length (a ++ b) = String.length a + String.length b.
Proof. induction a as [| c a IH]; simpl; [reflexivity | now rewrite IH]. Qed.

Lemma length_lower (s : string) : String.length (lower s) = String.length s.
Proof. induction s as [| c s IH]; simpl; [reflexivity | now rewrite IH]. Qed.

Lemma length_case_variant (word : string) :
  In word (case_variants "exit") -> String.length word = 4.
Proof.
  simpl. intros H.
  repeat (destruct H as [<- | H]; [reflexivity |]). destruct H.
Qed.

Lemma lower_case_variant (word : string) :
  In word (case_variants "exit") -> lower word = "exit".
Proof.
  simpl. intros H.
  repeat (destruct H as [<- | H]; [reflexivity |]). destruct H.
Qed.

Lemma lstrip_blank (pad s : string) :
  blank pad = true -> lstrip (pad ++ s) = lstrip s.
Proof.
  induction pad as [| c pad IH]; simpl; [reflexivity |].
  intros H. apply andb_prop in H as [Hc Hpad]. rewrite Hc. now apply IH.
Qed.

Lemma rstrip_all_blank (pad : string) :
  blank pad = true -> rstrip pad = EmptyString.
Proof.
  induction pad as [| c pad IH]; simpl; [reflexivity |].
  intros H. apply andb_prop in H as [Hc Hpad].
  rewrite (IH Hpad), Hc. reflexivity.
Qed.

Lemma rstrip_blank (s pad : string) :
  blank pad = true -> rstrip (s ++ pad) = rstrip s.
Proof.
  intros Hpad. induction s as [| c s IH]; simpl.
  - now apply rstrip_all_blank.
  - rewrite IH. reflexivity.
Qed.

(** A spelling of "exit" has no whitespace at either end. *)
Lemma case_variant_trimmed (word tail : string) :
  In word (case_variants "exit") ->
  lstrip (word ++ tail) = word ++ tail /\ rstrip word = word.
Proof.
  simpl. intros H.
  repeat (destruct H as [<- | H]; [split; reflexivity |]). destruct H.
Qed.

Lemma strip_padded (pad1 pad2 word : string) :
  blank pad1 = true -> blank pad2 = true ->
  In word (case_variants "exit") ->
  strip (pad1 ++ word ++ pad2) = word.
Proof.
  intros H1 H2 Hw. unfold strip.
  rewrite (lstrip_blank _ _ H1).
  destruct (case_variant_trimmed _ pad2 Hw) as [Hl Hr].
  rewrite Hl, (rstrip_blank _ _ H2). exact Hr.
Qed.

Lemma padded_is_not_exit (pad1 pad2 word : string) :
  pad1 ++ pad2 <> EmptyString ->
  In word (case_variants "exit") ->
  String.eqb (lower (pad1 ++ word ++ pad2)) "exit" = false.
Proof.
  intros Hpad Hw. apply String.eqb_neq. intros Heq.
  apply (f_equal String.length) in Heq.
  rewrite length_lower, !length_append, (length_case_variant _ Hw) in Heq.
  simpl in Heq.
  destruct pad1; [destruct pad2; [now apply Hpad |] |]; simpl in Heq; lia.
Qed.

(** Only the sixteen spellings pass the exit test. *)

Ltac by_all_characters c :=
  destruct c as [[] [] [] [] [] [] [] []]; vm_compute; intros H;
  first [discriminate H | left; reflexivity | right; reflexivity].

Lemma lower_char_e (c : ascii) :
  lower_char c = "e"%char -> c = "e"%char \/ c = "E"%char.
Proof. by_all_characters c. Qed.

Lemma lower_char_x (c : ascii) :
  lower_char c = "x"%char -> c = "x"%char \/ c = "X"%char.
Proof. by_all_characters c. Qed.

Lemma lower_char_i (c : ascii) :
  lower_char c = "i"%char -> c = "i"%char \/ c = "I"%char.
Proof. by_all_characters c. Qed.

Lemma lower_char_t (c : ascii) :
  lower_char c = "t"%char -> c = "t"%char \/ c = "T"%char.
Proof. by_all_characters c. Qed.

(** X16. The exit test passes for the sixteen spellings of "exit" in upper
    and lower case and for no other line: not with whitespace around it,
    not with any other character. *)
Lemma exit_test_exact (prompt : string) :
  lower prompt = "exit" <-> In prompt (case_variants "exit").
Proof.
  split; [| apply lower_case_variant].
  destruct prompt as [| c1 [| c2 [| c3 [| c4 [| c5 rest]]]]];
    cbn [lower]; intros H; try discriminate H.
  injection H as H1 H2 H3 H4.
  apply lower_char_e in H1. apply lower_char_x in H2.
  apply lower_char_i in H3. apply lower_char_t in H4.
  destruct H1 as [-> | ->], H2 as [-> | ->], H3 as [-> | ->], H4 as [-> | ->];
    simpl; repeat (first [left; reflexivity | right]).
Qed.

(* ================================================================== *)
(** ** The session *)

Section SessionFacts.

Variables St W Message : Type.
Variable run_sync :
  string -> SheetsDependencies St -> option (list Message) ->
  W -> outcome (AgentRunResult Message) * W.
Variable str_SheetsResult : SheetsResult -> string.
Variable service : Resource St.

Implicit Types (prompt : string) (p : Process W)
  (response : AgentRunResult Message).

(** C8. For a line that spells "exit" in any mix of upper and lower
    case, whether it is the first line or a later one, the process ends
    there through [sys.exit('See you next time')]: [run_sync] is not
    called, so no tool runs and the runtime's state is the one before the
    line was read, and the rest of the input stays unread. *)
Theorem exit_sentinel_ends_session prompt :
  In prompt (case_variants "exit") ->
  (forall history p,
      turn run_sync service prompt history p
      = (Raised (sys_exit "See you next time"), p))
  /\ (forall rest p,
         main run_sync str_SheetsResult service (prompt :: rest) p
         = {| reason := sys_exit "See you next time";
              final := {| runtime := runtime p;
                          stdout := stdout p ++ ["User: "] |};
              unread := rest |})
  /\ (forall rest response p,
         loop run_sync service (prompt :: rest) response p
         = {| reason := sys_exit "See you next time";
              final := {| runtime := runtime p;
                          stdout := stdout p ++ ["User: "] |};
              unread := rest |}).
Proof.
  intros Hexit.
  assert (Hturn : forall history p,
             turn run_sync service prompt history p
             = (Raised (sys_exit "See you next time"), p)).
  { intros history p. unfold turn.
    rewrite (lower_case_variant _ Hexit). reflexivity. }
  repeat split.
  - exact Hturn.
  - intros rest p. unfold main. rewrite Hturn. reflexivity.
  - intros rest response p. simpl. rewrite Hturn. reflexivity.
Qed.

(** C10. The exit test looks at the line as read, the agent gets the
    stripped line.  So "exit", in any case, with whitespace before or
    after it is not the sentinel: the turn is exactly one [run_sync] on
    the bare word, and in the loop the session goes on with the next
    line when that run returns. *)
Theorem padded_exit_is_a_turn pad1 pad2 word :
  blank pad1 = true -> blank pad2 = true -> pad1 ++ pad2 <> EmptyString ->
  In word (case_variants "exit") ->
  String.eqb (lower (pad1 ++ word ++ pad2)) "exit" = false
  /\ strip (pad1 ++ word ++ pad2) = word
  /\ (forall history p,
         turn run_sync service (pad1 ++ word ++ pad2) history p
         = let (r, w') := run_sync word (session_deps service) history
                            (runtime p) in
           (r, {| runtime := w'; stdout := stdout p |}))
  /\ (forall rest response p answer w',
         run_sync word (session_deps service)
           (Some (all_messages response)) (runtime p)
         = (Returned answer, w') ->
         loop run_sync service ((pad1 ++ word ++ pad2) :: rest) response p
         = loop run_sync service rest answer
             (print_line
                ("Sheets agent: " ++ result_details (data answer))
                {| runtime := w'; stdout := stdout p ++ ["User: "] |})).
Proof.
  intros H1 H2 Hpad Hw.
  pose proof (padded_is_not_exit pad1 pad2 word Hpad Hw) as Hno.
  pose proof (strip_padded pad1 pad2 word H1 H2 Hw) as Hstrip.
  assert (Hturn : forall history p,
             turn run_sync service (pad1 ++ word ++ pad2) history p
             = let (r, w') := run_sync word (session_deps service) history
                                (runtime p) in
               (r, {| runtime := w'; stdout := stdout p |})).
  { intros history p. unfold turn. rewrite Hno, Hstrip. reflexivity. }
  repeat split; try assumption.
  intros rest response p answer w' Hrun.
  cbn [loop]. rewrite Hturn. cbn [runtime write stdout]. rewrite Hrun.
  reflexivity.
Qed.

End SessionFacts.

(* ================================================================== *)
(** ** Deleting twice from the in-memory spreadsheet *)

Lemma found_is_member (sheet_name : string) (i : Z) (l : list SheetProperties) :
  find_sheet_id sheet_name (map (fun p => {| properties := p |}) l) = Some i ->
  exists p, In p l /\ title p = sheet_name /\ sheetId p = i.
Proof.
  induction l as [| q l IH]; simpl; [discriminate |].
  destruct (String.eqb_spec (title q) sheet_name) as [Hq | _].
  - intros [= <-]. exists q. auto.
  - intros Hfind. destruct (IH Hfind) as (p & Hin & Ht & Hi).
    exists p. auto.
Qed.

Lemma unique_title (l : list SheetProperties) (p q : SheetProperties) :
  NoDup (map title l) -> In p l -> In q l -> title p = title q -> p = q.
Proof.
  induction l as [| x l IH]; simpl; intros Hnd Hp Hq Ht; [destruct Hp |].
  inversion Hnd as [| ? ? Hx Hl]; subst.
  destruct Hp as [-> | Hp], Hq as [-> | Hq]; auto.
  - exfalso. apply Hx. rewrite Ht. now apply in_map.
  - exfalso. apply Hx. rewrite <- Ht. now apply in_map.
Qed.

Lemma InMemory_delete_twice (b : InMemory.Book) (sheet_name : string)
    (response : BatchUpdateResponse) (w1 : World InMemory.Book) :
  NoDup (map title (InMemory.book_sheets b)) ->
  delete_sheet (InMemory.ctx (InMemory.book_id b)) sheet_name (InMemory.start b)
  = (Returned (VResponse response), w1) ->
  fst (delete_sheet (InMemory.ctx (InMemory.book_id b)) sheet_name w1)
  = Returned (VStr ("Sheet " ++ sheet_name
                      ++ " is already deleted or does not exist"))
  /\ remote (snd (delete_sheet (InMemory.ctx (InMemory.book_id b))
                    sheet_name w1)) = remote w1.
Proof.
  intros Hnd Hfirst.
  unfold delete_sheet in Hfirst. rewrite guarded_outcome in Hfirst.
  unfold delete_sheet_try in Hfirst. revert Hfirst. run_tool.
  unfold InMemory.get, InMemory.batchUpdate. rewrite String.eqb_refl. simpl.
  unfold get_sheets. simpl.
  destruct (find_sheet_id sheet_name
              (map (fun p => {| properties := p |}) (InMemory.book_sheets b)))
    as [i |] eqn:Hfind; simpl; [| discriminate].
  rewrite String.eqb_refl.
  destruct (existsb (InMemory.has_id i) (InMemory.book_sheets b)); simpl;
    [| discriminate].
  destruct (List.length (InMemory.book_sheets b) <=? 1)%nat; simpl;
    [discriminate |].
  intros [= <- <-].
  destruct (found_is_member _ _ _ Hfind) as (hit & Hhit & Htitle & Hid).
  set (left_over := filter (fun p => negb (InMemory.has_id i p))
                      (InMemory.book_sheets b)).
  assert (Hgone : find_sheet_id sheet_name
                    (map (fun p => {| properties := p |}) left_over) = None).
  { apply find_sheet_id_none. intros sheet Hin Hname.
    apply in_map_iff in Hin as (q & <- & Hq). simpl in Hname.
    apply filter_In in Hq as [Hq Hkept].
    assert (q = hit) as ->.
    { apply unique_title with (InMemory.book_sheets b); congruence. }
    unfold InMemory.has_id in Hkept. rewrite Hid, Z.eqb_refl in Hkept.
    discriminate Hkept. }
  match goal with
  | |- context [delete_sheet ?c ?n ?w] =>
      rewrite (delete_sheet_absent_run InMemory.Book c n w
                 {| sheets := Some (map (fun p => {| properties := p |})
                                        left_over) |}
                 (remote w))
  end.
  - split; reflexivity.
  - simpl. unfold InMemory.get. simpl. rewrite String.eqb_refl. reflexivity.
  - exact Hgone.
Qed.

(* ================================================================== *)
(** ** The tools on concrete services *)

Lemma add_sheet_single_request_witness :
  add_sheet (InMemory.ctx "book") "Q1" (InMemory.start InMemory.two_sheets)
  = (Returned
       (VResponse {| spreadsheetId := "book";
                     replies := [addSheetReply {| sheetId := 3; title := "Q1" |}] |}),
     {| remote := {| InMemory.book_id := "book";
                     InMemory.book_sheets :=
                       [ {| sheetId := 1; title := "Sheet1" |};
                         {| sheetId := 2; title := "Sheet2" |};
                         {| sheetId := 3; title := "Q1" |} ];
                     InMemory.next_id := 4 |};
        trace := [EvPrint (add_banner "Q1");
                  EvBatchUpdate "book" (add_body "Q1");
                  EvSleep 1] |})
  /\ fst (add_sheet (InMemory.ctx "book") "Sheet1"
            (InMemory.start InMemory.two_sheets))
     = Returned (VStr "An error occurred: A sheet with that name already exists").
Proof.
  split.
  - apply (proj1 (add_sheet_single_request InMemory.Book (InMemory.ctx "book")
                    "Q1" (InMemory.start InMemory.two_sheets))).
    reflexivity.
  - rewrite (proj2 (add_sheet_single_request InMemory.Book (InMemory.ctx "book")
                      "Sheet1" (InMemory.start InMemory.two_sheets))
               (InMemory.http_error "A sheet with that name already exists")
               InMemory.two_sheets); reflexivity.
Defined.

Lemma transport_failure_returned_as_text_witness :
  add_sheet (Unavailable.ctx tls_failure) "Q1" Unavailable.start
  = (Returned (VStr "An error occurred: EOF occurred in violation of protocol"),
     {| remote := tt;
        trace := [EvPrint (add_banner "Q1");
                  EvBatchUpdate "book" (add_body "Q1")] |})
  /\ delete_sheet (Unavailable.ctx tls_failure) "Q1" Unavailable.start
     = (Returned (VStr "An error occurred: EOF occurred in violation of protocol"),
        {| remote := tt;
           trace := [EvPrint (delete_banner "Q1"); EvGet "book"] |}).
Proof.
  split.
  - apply (proj1 (transport_failure_returned_as_text unit
                    (Unavailable.ctx tls_failure) "Q1" Unavailable.start
                    tls_failure _ eq_refl)).
    reflexivity.
  - apply (proj2 (transport_failure_returned_as_text unit
                    (Unavailable.ctx tls_failure) "Q1" Unavailable.start
                    tls_failure _ eq_refl)).
    reflexivity.
Defined.

Lemma delete_sheet_absent_witness :
  fst (delete_sheet (InMemory.ctx "book") "Nope"
         (InMemory.start InMemory.two_sheets))
  = Returned (VStr "Sheet Nope is already deleted or does not exist")
  /\ structural_changes
       (snd (delete_sheet (InMemory.ctx "book") "Nope"
               (InMemory.start InMemory.two_sheets))) = []
  /\ fst (delete_sheet (InMemory.ctx "book") "Sheet1"
            (snd (delete_sheet (InMemory.ctx "book") "Sheet1"
                    (InMemory.start InMemory.two_sheets))))
     = Returned (VStr "Sheet Sheet1 is already deleted or does not exist").
Proof.
  pose proof (delete_sheet_absent InMemory.Book (InMemory.ctx "book")) as Habsent.
  split; [| split].
  - destruct (proj1 (Habsent "Nope") (InMemory.start InMemory.two_sheets)
                {| sheets := Some [ {| properties := {| sheetId := 1; title := "Sheet1" |} |};
                                    {| properties := {| sheetId := 2; title := "Sheet2" |} |} ] |}
                InMemory.two_sheets eq_refl) as [Hrun _].
    + simpl. intros sheet [<- | [<- | []]]; discriminate.
    + rewrite Hrun. reflexivity.
  - destruct (proj1 (Habsent "Nope") (InMemory.start InMemory.two_sheets)
                {| sheets := Some [ {| properties := {| sheetId := 1; title := "Sheet1" |} |};
                                    {| properties := {| sheetId := 2; title := "Sheet2" |} |} ] |}
                InMemory.two_sheets eq_refl) as [_ Hquiet].
    + simpl. intros sheet [<- | [<- | []]]; discriminate.
    + rewrite Hquiet. reflexivity.
  - destruct (proj2 (Habsent "Sheet1") (InMemory.start InMemory.two_sheets)
                _ _
                {| sheets := Some [ {| properties := {| sheetId := 2; title := "Sheet2" |} |} ] |}
                _ eq_refl eq_refl) as [Hsecond _].
    + simpl. intros sheet [<- | []]; discriminate.
    + exact Hsecond.
Defined.

Lemma delete_sheet_first_match_witness :
  delete_sheet (InMemory.ctx "book") "X" (InMemory.start with_twins)
  = (Returned (VResponse {| spreadsheetId := "book"; replies := [emptyReply] |}),
     {| remote := {| InMemory.book_id := "book";
                     InMemory.book_sheets := [ {| sheetId := 1; title := "A" |};
                                               {| sheetId := 9; title := "X" |} ];
                     InMemory.next_id := 10 |};
        trace := [EvPrint (delete_banner "X");
                  EvGet "book";
                  EvBatchUpdate "book" (delete_body 7)] |}).
Proof.
  destruct (delete_sheet_first_match InMemory.Book (InMemory.ctx "book") "X"
              (InMemory.start with_twins)
              {| sheets := Some [ {| properties := {| sheetId := 1; title := "A" |} |};
                                  {| properties := {| sheetId := 7; title := "X" |} |};
                                  {| properties := {| sheetId := 9; title := "X" |} |} ] |}
              with_twins eq_refl)
    as (before & sheet & after & _ & _ & _ & Hfind & _ & Hrun).
  - exists {| properties := {| sheetId := 9; title := "X" |} |}.
    simpl. auto.
  - injection Hfind as Hid.
    rewrite <- Hid in Hrun.
    apply (Hrun {| spreadsheetId := "book"; replies := [emptyReply] |}).
    reflexivity.
Defined.

Lemma list_sheets_projects_in_order_witness :
  list_sheets (InMemory.ctx "book") (InMemory.start with_twins)
  = (Returned [[("id", PyInt 1); ("name", PyStr "A")];
               [("id", PyInt 7); ("name", PyStr "X")];
               [("id", PyInt 9); ("name", PyStr "X")]],
     {| remote := with_twins;
        trace := [EvPrint "Calling list_sheets"; EvGet "book"] |}).
Proof.
  apply (proj1 (list_sheets_projects_in_order InMemory.Book (InMemory.ctx "book"))
           (InMemory.start with_twins)
           {| sheets := Some [ {| properties := {| sheetId := 1; title := "A" |} |};
                               {| properties := {| sheetId := 7; title := "X" |} |};
                               {| properties := {| sheetId := 9; title := "X" |} |} ] |}
           with_twins).
  reflexivity.
Defined.

Lemma list_sheets_empty_witness :
  list_sheets (InMemory.ctx "book") (InMemory.start no_sheets)
  = (Returned [],
     {| remote := no_sheets;
        trace := [EvPrint "Calling list_sheets"; EvGet "book"] |}).
Proof.
  apply (list_sheets_empty InMemory.Book (InMemory.ctx "book")
           (InMemory.start no_sheets) {| sheets := Some [] |} no_sheets).
  - reflexivity.
  - right. reflexivity.
Defined.

Lemma list_sheets_failure_raises_TypeError_witness :
  list_sheets (Unavailable.ctx not_found_404) Unavailable.start
  = (Raised cannot_catch,
     {| remote := tt;
        trace := [EvPrint "Calling list_sheets"; EvGet "book"] |}).
Proof.
  apply (list_sheets_failure_raises_TypeError unit
           (Unavailable.ctx not_found_404) Unavailable.start not_found_404).
  reflexivity.
Defined.

Lemma generic_handler_shadows_retry_witness :
  add_sheet (Unavailable.ctx not_found_404) "Q1" Unavailable.start
  = (Returned (VStr "An error occurred: Requested entity was not found"),
     {| remote := tt;
        trace := [EvPrint (add_banner "Q1");
                  EvBatchUpdate "book" (add_body "Q1")] |})
  /\ isinstance tls_failure Exception = true
  /\ exists e,
      add_sheet_try (Unavailable.ctx interrupt) "Q1" Unavailable.start
      = (Raised e,
         {| remote := tt;
            trace := [EvPrint (add_banner "Q1");
                      EvBatchUpdate "book" (add_body "Q1")] |})
      /\ isinstance e Exception = false.
Proof.
  split; [| split].
  - apply (proj1 (proj1 (generic_handler_shadows_retry unit
                           (Unavailable.ctx not_found_404) "Q1"
                           Unavailable.start)
                    not_found_404 _ eq_refl)).
    reflexivity.
  - apply (proj1 (proj2 (generic_handler_shadows_retry unit
                           (Unavailable.ctx not_found_404) "Q1"
                           Unavailable.start))).
    reflexivity.
  - apply (proj1 (proj2 (proj2 (proj2
             (generic_handler_shadows_retry unit (Unavailable.ctx interrupt)
                "Q1" Unavailable.start))))
             cannot_catch).
    reflexivity.
Defined.

(** C9, as stated, fails: a [KeyboardInterrupt] raised while the request is
    under way is not an instance of [Exception], passes the first clause,
    and the second clause raises [TypeError] out of [add_sheet]. *)
Lemma interrupt_escapes_add_sheet :
  add_sheet (Unavailable.ctx interrupt) "Q1" Unavailable.start
  = (Raised cannot_catch,
     {| remote := tt;
        trace := [EvPrint (add_banner "Q1");
                  EvBatchUpdate "book" (add_body "Q1")] |})
  /\ ~ (forall (St : Type) (ctx : RunContext St) (sheet_name : string)
               (w : World St),
           exists v w', add_sheet ctx sheet_name w = (Returned v, w')).
Proof.
  split; [reflexivity |].
  intros Hnever.
  destruct (Hnever unit (Unavailable.ctx interrupt) "Q1" Unavailable.start)
    as (v & w' & Hrun).
  discriminate Hrun.
Qed.

Lemma exit_sentinel_ends_session_witness :
  main Scripted.run_sync Scripted.str_SheetsResult
    (Unavailable.service tls_failure) ["EXIT"; "add a sheet"] Scripted.start
  = {| reason := sys_exit "See you next time";
       final := {| runtime := []; stdout := ["User: "] |};
       unread := ["add a sheet"] |}.
Proof.
  assert (Hexit : In "EXIT" (case_variants "exit")).
  { simpl. repeat (first [left; reflexivity | right]). }
  apply (proj1 (proj2 (exit_sentinel_ends_session unit (list string) string
                         Scripted.run_sync Scripted.str_SheetsResult
                         (Unavailable.service tls_failure) "EXIT" Hexit))).
Defined.

Lemma padded_exit_is_a_turn_witness :
  turn Scripted.run_sync (Unavailable.service tls_failure) " exit " None
    Scripted.start
  = (Returned Scripted.answer, {| runtime := ["exit"]; stdout := [] |}).
Proof.
  assert (Hpad : " " ++ " " <> EmptyString) by discriminate.
  assert (Hword : In "exit" (case_variants "exit")) by (left; reflexivity).
  apply (proj1 (proj2 (proj2
           (padded_exit_is_a_turn unit (list string) string
              Scripted.run_sync (Unavailable.service tls_failure)
              " " " " "exit" eq_refl eq_refl Hpad Hword)))).
Defined.

(* ================================================================== *)
(** ** Every run of a tool, by what the service answers *)

Section ToolRuns.

Variable St : Type.
Variable ctx : RunContext St.
Implicit Types (w : World St) (sheet_name : string).

Let d := deps ctx.
Let book := spreadsheet_id d.

Lemma add_sheet_run sheet_name w :
  add_sheet ctx sheet_name w
  = match batchUpdate_execute (sheets_service d) book (add_body sheet_name)
            (remote w) with
    | (Returned response, s') =>
        (Returned (VResponse response),
         {| remote := s';
            trace := trace w ++ [EvPrint (add_banner sheet_name);
                                 EvBatchUpdate book (add_body sheet_name);
                                 EvSleep 1] |})
    | (Raised e, s') =>
        (if isinstance e Exception
         then Returned (VStr ("An error occurred: " ++ str e))
         else Raised cannot_catch,
         {| remote := s';
            trace := trace w ++ [EvPrint (add_banner sheet_name);
                                 EvBatchUpdate book (add_body sheet_name)] |})
    end.
Proof.
  unfold add_sheet. rewrite guarded_outcome.
  unfold add_sheet_try. run_tool. fold d. fold book. unfold add_body.
  match goal with
  | |- context [batchUpdate_execute ?svc ?id ?body ?s] =>
      destruct (batchUpdate_execute svc id body s) as [[response | e] s']
  end; simpl.
  - rewrite <- !app_assoc. reflexivity.
  - destruct (isinstance e Exception); rewrite <- !app_assoc; reflexivity.
Qed.

Lemma delete_sheet_run sheet_name w :
  delete_sheet ctx sheet_name w
  = match get_execute (sheets_service d) book (remote w) with
    | (Raised e, s1) =>
        (if isinstance e Exception
         then Returned (VStr ("An error occurred: " ++ str e))
         else Raised cannot_catch,
         {| remote := s1;
            trace := trace w ++ [EvPrint (delete_banner sheet_name);
                                 EvGet book] |})
    | (Returned md, s1) =>
        match find_sheet_id sheet_name (get_sheets md) with
        | None =>
            (Returned (VStr ("Sheet " ++ sheet_name
                               ++ " is already deleted or does not exist")),
             {| remote := s1;
                trace := trace w ++ [EvPrint (delete_banner sheet_name);
                                     EvGet book;
                                     EvPrint ("Sheet " ++ sheet_name
                                                ++ " not found")] |})
        | Some sheet_id =>
            match batchUpdate_execute (sheets_service d) book
                    (delete_body sheet_id) s1 with
            | (Returned response, s2) =>
                (Returned (VResponse response),
                 {| remote := s2;
                    trace := trace w ++ [EvPrint (delete_banner sheet_name);
                                         EvGet book;
                                         EvBatchUpdate book
                                           (delete_body sheet_id)] |})
            | (Raised e, s2) =>
                (if isinstance e Exception
                 then Returned (VStr ("An error occurred: " ++ str e))
                 else Raised cannot_catch,
                 {| remote := s2;
                    trace := trace w ++ [EvPrint (delete_banner sheet_name);
                                         EvGet book;
                                         EvBatchUpdate book
                                           (delete_body sheet_id)] |})
            end
        end
    end.
Proof.
  unfold delete_sheet. rewrite guarded_outcome.
  unfold delete_sheet_try. run_tool. fold d. fold book. unfold delete_body.
  destruct (get_execute (sheets_service d) book (remote w)) as [[md | e] s1];
    simpl.
  - destruct (find_sheet_id sheet_name (get_sheets md)) as [sheet_id |]; simpl.
    + match goal with
      | |- context [batchUpdate_execute ?svc ?id ?body ?s] =>
          destruct (batchUpdate_execute svc id body s) as [[response | e] s2]
      end; simpl.
      * rewrite <- !app_assoc. reflexivity.
      * destruct (isinstance e Exception); rewrite <- !app_assoc; reflexivity.
    + rewrite <- !app_assoc. reflexivity.
  - destruct (isinstance e Exception); rewrite <- !app_assoc; reflexivity.
Qed.

Lemma list_sheets_run w :
  list_sheets ctx w
  = match get_execute (sheets_service d) book (remote w) with
    | (Returned md, s1) =>
        (Returned (map descriptor (get_sheets md)),
         {| remote := s1;
            trace := trace w ++ [EvPrint "Calling list_sheets"; EvGet book] |})
    | (Raised e, s1) =>
        (Raised cannot_catch,
         {| remote := s1;
            trace := trace w ++ [EvPrint "Calling list_sheets"; EvGet book] |})
    end.
Proof.
  unfold list_sheets, list_sheets_try. run_tool. fold d. fold book.
  destruct (get_execute (sheets_service d) book (remote w)) as [[md | e] s1];
    simpl.
  - destruct (get_sheets md); simpl; rewrite <- !app_assoc; reflexivity.
  - rewrite <- !app_assoc. reflexivity.
Qed.

End ToolRuns.

Lemma find_sheet_id_some (sheet_name : string) (i : Z) (l : list Sheet) :
  find_sheet_id sheet_name l = Some i ->
  exists sheet, In sheet l /\ title (properties sheet) = sheet_name
                /\ sheetId (properties sheet) = i.
Proof.
  induction l as [| x l IH]; simpl; [discriminate |].
  destruct (String.eqb_spec (title (properties x)) sheet_name) as [Hx | _].
  - intros [= <-]. exists x. auto.
  - intros Hfind. destruct (IH Hfind) as (sheet & Hin & Ht & Hi).
    exists sheet. auto.
Qed.

Lemma find_sheet_id_none_inv (sheet_name : string) (l : list Sheet) :
  find_sheet_id sheet_name l = None ->
  forall sheet, In sheet l -> title (properties sheet) <> sheet_name.
Proof.
  induction l as [| x l IH]; simpl; [intros _ sheet [] |].
  destruct (String.eqb_spec (title (properties x)) sheet_name) as [Hx | Hx];
    [discriminate |].
  intros Hfind sheet [<- | Hin]; [exact Hx | now apply IH].
Qed.

Lemma only_one_with_key {A B : Type} (key : A -> B) (l : list A) (p q : A) :
  NoDup (map key l) -> In p l -> In q l -> key p = key q -> p = q.
Proof.
  induction l as [| x l IH]; simpl; intros Hnd Hp Hq Hk; [destruct Hp |].
  inversion Hnd as [| ? ? Hx Hl]; subst.
  destruct Hp as [-> | Hp], Hq as [-> | Hq]; auto.
  - exfalso. apply Hx. rewrite Hk. now apply in_map.
  - exfalso. apply Hx. rewrite <- Hk. now apply in_map.
Qed.

(** The tuple of the first clause matches the instances of [Exception] and
    nothing else. *)
Lemma fallback_match (e : exn) :
  exc_match e (Tuple [Class Exception; Class UnexpectedModelBehavior])
  = Returned (isinstance e Exception).
Proof.
  unfold exc_match. simpl. f_equal.
  destruct (isinstance e Exception) eqn:He; [reflexivity |].
  destruct (isinstance e UnexpectedModelBehavior) eqn:Hu; [| reflexivity].
  apply subclass_of_Exception in Hu. unfold isinstance in He. congruence.
Qed.

Ltac case_fetch :=
  match goal with
  | |- context [get_execute ?svc ?id ?s] =>
      destruct (get_execute svc id s) as [[md | e] s1]
  end.

Ltac case_update :=
  match goal with
  | |- context [batchUpdate_execute ?svc ?id ?body ?s] =>
      destruct (batchUpdate_execute svc id body s) as [[response | e] s2]
  end.

(* ================================================================== *)
(** ** More on the tools *)

Section ToolExtras.

Variable St : Type.
Variable ctx : RunContext St.
Implicit Types (w : World St) (sheet_name : string).

Let d := deps ctx.
Let book := spreadsheet_id d.

(** X1. [list_sheets] only reads: whatever the service answers, the call
    prints its banner, fetches the metadata once, and does nothing else; it
    sends no [batchUpdate] and the remote state is the one the fetch left. *)
Theorem list_sheets_only_reads w :
  trace (snd (list_sheets ctx w))
  = (trace w ++ [EvPrint "Calling list_sheets"; EvGet book])%list
  /\ remote (snd (list_sheets ctx w))
     = snd (get_execute (sheets_service d) book (remote w))
  /\ structural_changes (snd (list_sheets ctx w)) = structural_changes w.
Proof.
  unfold book, d in *.
  rewrite list_sheets_run.
  case_fetch;
    simpl;
    (split; [reflexivity | split; [reflexivity |]]);
    unfold structural_changes; simpl; rewrite filter_app; simpl;
    apply app_nil_r.
Qed.

(** X2. [add_sheet] sends its one request without looking at the
    spreadsheet first, and sleeps exactly when the request was answered: the
    trace grows by the banner, the [batchUpdate], and then either the sleep
    of 1 second, with the response returned, or nothing, with something else
    than a response as outcome. *)
Theorem add_sheet_sleeps_only_after_success sheet_name w :
  exists tail,
    trace (snd (add_sheet ctx sheet_name w))
    = (trace w ++ [EvPrint (add_banner sheet_name);
                   EvBatchUpdate book (add_body sheet_name)] ++ tail)%list
    /\ ((tail = [EvSleep 1]
         /\ exists response,
             fst (add_sheet ctx sheet_name w) = Returned (VResponse response))
        \/ (tail = []
            /\ forall response,
                fst (add_sheet ctx sheet_name w)
                <> Returned (VResponse response))).
Proof.
  unfold book, d in *.
  rewrite add_sheet_run.
  case_update; simpl.
  - exists [EvSleep 1]. split; [reflexivity |]. left. split; [reflexivity |].
    now exists response.
  - exists []. split; [reflexivity |]. right. split; [reflexivity |].
    intros response. destruct (isinstance e Exception); discriminate.
Qed.

(** X3. When the metadata fetch of [delete_sheet] fails with an error, the
    call returns "An error occurred: <message>", sends no [batchUpdate],
    and stops after the fetch. *)
Theorem delete_sheet_fetch_failure sheet_name w e s1 :
  get_execute (sheets_service d) book (remote w) = (Raised e, s1) ->
  isinstance e Exception = true ->
  delete_sheet ctx sheet_name w
  = (Returned (VStr ("An error occurred: " ++ str e)),
     {| remote := s1;
        trace := trace w ++ [EvPrint (delete_banner sheet_name);
                             EvGet book] |})
  /\ structural_changes (snd (delete_sheet ctx sheet_name w))
     = structural_changes w.
Proof.
  unfold book, d in *.
  intros Hget He. rewrite delete_sheet_run, Hget, He. split; [reflexivity |].
  unfold structural_changes. simpl. rewrite filter_app. simpl.
  apply app_nil_r.
Qed.

(** X4. When the sheet is found but the service refuses the deletion with
    an error, [delete_sheet] returns "An error occurred: <message>"; the
    one request it sent is the [deleteSheet] of the first sheet with the
    title. *)
Theorem delete_sheet_update_failure sheet_name w md s1 sheet_id e s2 :
  get_execute (sheets_service d) book (remote w) = (Returned md, s1) ->
  find_sheet_id sheet_name (get_sheets md) = Some sheet_id ->
  batchUpdate_execute (sheets_service d) book (delete_body sheet_id) s1
  = (Raised e, s2) ->
  isinstance e Exception = true ->
  delete_sheet ctx sheet_name w
  = (Returned (VStr ("An error occurred: " ++ str e)),
     {| remote := s2;
        trace := trace w ++ [EvPrint (delete_banner sheet_name);
                             EvGet book;
                             EvBatchUpdate book (delete_body sheet_id)] |}).
Proof.
  intros Hget Hfind Hcall He.
  unfold book, d in *.
  rewrite delete_sheet_run, Hget, Hfind, Hcall, He. reflexivity.
Qed.

(** X5. Once the metadata is fetched, [delete_sheet] answers "Sheet <name>
    is already deleted or does not exist" exactly when no sheet has the
    title: no other path of the tool produces that text. *)
Theorem delete_sheet_not_found_iff sheet_name w md s1 :
  get_execute (sheets_service d) book (remote w) = (Returned md, s1) ->
  fst (delete_sheet ctx sheet_name w)
  = Returned (VStr ("Sheet " ++ sheet_name
                      ++ " is already deleted or does not exist"))
  <-> (forall sheet, In sheet (get_sheets md) ->
                     title (properties sheet) <> sheet_name).
Proof.
  unfold book, d in *.
  intros Hget. rewrite delete_sheet_run, Hget. split.
  - destruct (find_sheet_id sheet_name (get_sheets md)) as [sheet_id |] eqn:Hfind.
    + case_update; simpl;
        [discriminate |].
      destruct (isinstance e Exception); simpl; discriminate.
    + intros _. now apply find_sheet_id_none_inv.
  - intros Hno. rewrite (find_sheet_id_none _ _ Hno). reflexivity.
Qed.

(** X6. Whatever the service answers, [delete_sheet] fetches the metadata
    once, first, then sends at most one [batchUpdate]; it never sleeps. *)
Theorem delete_sheet_sends_at_most_one sheet_name w :
  exists added,
    trace (snd (delete_sheet ctx sheet_name w))
    = (trace w ++ [EvPrint (delete_banner sheet_name); EvGet book]
         ++ added)%list
    /\ (List.length (filter is_batchUpdate added) <= 1)%nat
    /\ (forall seconds, ~ In (EvSleep seconds) added)
    /\ (forall id, ~ In (EvGet id) added).
Proof.
  unfold book, d in *.
  rewrite delete_sheet_run.
  case_fetch.
  - destruct (find_sheet_id sheet_name (get_sheets md)) as [sheet_id |].
    + exists [EvBatchUpdate book (delete_body sheet_id)].
      case_update; simpl;
        (split; [reflexivity |]); (split; [apply Nat.le_refl |]);
        split; intros ? [H | []]; discriminate H.
    + exists [EvPrint ("Sheet " ++ sheet_name ++ " not found")]. simpl.
      split; [reflexivity |]. split; [apply Nat.le_0_l |].
      split; intros ? [H | []]; discriminate H.
  - exists []. simpl. split; [reflexivity |]. split; [apply Nat.le_0_l |].
    split; intros ? [].
Qed.

(** X7. Whatever [delete_sheet] asks the service to delete is the
    identifier of a sheet of the fetched metadata that has the given
    title, addressed to the spreadsheet of the dependencies. *)
Theorem delete_sheet_targets_titled_sheet sheet_name w md s1 :
  get_execute (sheets_service d) book (remote w) = (Returned md, s1) ->
  exists added,
    trace (snd (delete_sheet ctx sheet_name w)) = (trace w ++ added)%list
    /\ forall id body,
        In (EvBatchUpdate id body) added ->
        id = book
        /\ exists sheet,
            In sheet (get_sheets md)
            /\ title (properties sheet) = sheet_name
            /\ body = delete_body (sheetId (properties sheet)).
Proof.
  unfold book, d in *.
  intros Hget. rewrite delete_sheet_run, Hget.
  destruct (find_sheet_id sheet_name (get_sheets md)) as [sheet_id |] eqn:Hfind.
  - destruct (find_sheet_id_some _ _ _ Hfind) as (sheet & Hin & Ht & Hi).
    exists [EvPrint (delete_banner sheet_name); EvGet book;
            EvBatchUpdate book (delete_body sheet_id)].
    split.
    + case_update;
        reflexivity.
    + intros id body [H | [H | [H | []]]]; try discriminate H.
      injection H as <- <-. split; [reflexivity |].
      exists sheet. rewrite Hi. auto.
  - exists [EvPrint (delete_banner sheet_name); EvGet book;
            EvPrint ("Sheet " ++ sheet_name ++ " not found")].
    split; [reflexivity |].
    intros id body [H | [H | [H | []]]]; discriminate H.
Qed.

(** X8. Naming [UnexpectedModelBehavior] beside [Exception] in the first
    clause of [add_sheet] and [delete_sheet] changes nothing: the clause
    takes an exception exactly when it is an instance of [Exception], so
    a tool returns the error text for those and for no other. *)
Theorem fallback_takes_exactly_Exception sheet_name w e w' :
  add_sheet_try ctx sheet_name w = (Raised e, w') ->
  exc_match e (fst (string_fallback St)) = exc_match e (One (Class Exception))
  /\ (isinstance e Exception = true
      <-> add_sheet ctx sheet_name w
          = (Returned (VStr ("An error occurred: " ++ str e)), w')).
Proof.
  unfold book, d in *.
  intros Hbody. split.
  - unfold string_fallback. simpl fst. rewrite fallback_match.
    unfold exc_match. simpl. now rewrite orb_false_r.
  - unfold add_sheet. rewrite guarded_outcome, Hbody.
    destruct (isinstance e Exception); split; intros H;
      try reflexivity; discriminate H.
Qed.

(** X9. Deleting twice.  Take a spreadsheet whose titles are all different
    and a service that, after a deletion it confirmed, lists the sheets it
    listed before without the deleted identifier.  Then the first
    [delete_sheet] of a title that is present returns the confirmation,
    and the second one returns "Sheet <name> is already deleted or does
    not exist" and sends nothing. *)
Theorem delete_sheet_twice sheet_name w md s1 hit response s2 md' s3 :
  get_execute (sheets_service d) book (remote w) = (Returned md, s1) ->
  NoDup (map (fun sheet => title (properties sheet)) (get_sheets md)) ->
  In hit (get_sheets md) ->
  title (properties hit) = sheet_name ->
  batchUpdate_execute (sheets_service d) book
    (delete_body (sheetId (properties hit))) s1 = (Returned response, s2) ->
  get_execute (sheets_service d) book s2 = (Returned md', s3) ->
  get_sheets md'
  = filter (fun sheet => negb (Z.eqb (sheetId (properties sheet))
                                 (sheetId (properties hit))))
      (get_sheets md) ->
  fst (delete_sheet ctx sheet_name w) = Returned (VResponse response)
  /\ fst (delete_sheet ctx sheet_name (snd (delete_sheet ctx sheet_name w)))
     = Returned (VStr ("Sheet " ++ sheet_name
                         ++ " is already deleted or does not exist"))
  /\ structural_changes
       (snd (delete_sheet ctx sheet_name (snd (delete_sheet ctx sheet_name w))))
     = structural_changes (snd (delete_sheet ctx sheet_name w)).
Proof.
  intros Hget Hnd Hin Htitle Hcall Hget' Hleft.
  unfold book, d in *.
  assert (Hfind : find_sheet_id sheet_name (get_sheets md)
                  = Some (sheetId (properties hit))).
  { destruct (find_sheet_id sheet_name (get_sheets md)) as [i |] eqn:Hf.
    - destruct (find_sheet_id_some _ _ _ Hf) as (sheet & Hs & Ht & Hi).
      assert (sheet = hit) as ->.
      { apply (only_one_with_key (fun s => title (properties s))
                 (get_sheets md)); congruence. }
      now rewrite Hi.
    - exfalso. exact (find_sheet_id_none_inv _ _ Hf hit Hin Htitle). }
  assert (Hgone : find_sheet_id sheet_name (get_sheets md') = None).
  { apply find_sheet_id_none. intros sheet Hs Ht. rewrite Hleft in Hs.
    apply filter_In in Hs as [Hs Hkept].
    assert (sheet = hit) as ->.
    { apply (only_one_with_key (fun s => title (properties s))
               (get_sheets md)); congruence. }
    rewrite Z.eqb_refl in Hkept. discriminate Hkept. }
  assert (Hfirst : delete_sheet ctx sheet_name w
                   = (Returned (VResponse response),
                      {| remote := s2;
                         trace := trace w
                                    ++ [EvPrint (delete_banner sheet_name);
                                        EvGet book;
                                        EvBatchUpdate book
                                          (delete_body
                                             (sheetId (properties hit)))] |})).
  { rewrite delete_sheet_run, Hget, Hfind, Hcall. reflexivity. }
  rewrite Hfirst. simpl fst. simpl snd. split; [reflexivity |].
  rewrite delete_sheet_run. simpl remote. rewrite Hget', Hgone.
  split; [reflexivity |].
  unfold structural_changes. simpl. rewrite !filter_app. simpl.
  now rewrite app_nil_r.
Qed.

End ToolExtras.

Lemma delete_sheet_fetch_failure_witness :
  delete_sheet (InMemory.ctx "other") "Sheet1"
    (InMemory.start InMemory.two_sheets)
  = (Returned (VStr "An error occurred: Requested entity was not found"),
     {| remote := InMemory.two_sheets;
        trace := [EvPrint (delete_banner "Sheet1"); EvGet "other"] |}).
Proof.
  apply (delete_sheet_fetch_failure InMemory.Book (InMemory.ctx "other")
           "Sheet1" (InMemory.start InMemory.two_sheets)
           not_found_404 InMemory.two_sheets eq_refl eq_refl).
Defined.

Lemma delete_sheet_update_failure_witness :
  delete_sheet (InMemory.ctx "book") "Sheet1" (InMemory.start one_sheet)
  = (Returned
       (VStr "An error occurred: Cannot remove all the sheets of a document"),
     {| remote := one_sheet;
        trace := [EvPrint (delete_banner "Sheet1"); EvGet "book";
                  EvBatchUpdate "book" (delete_body 1)] |}).
Proof.
  apply (delete_sheet_update_failure InMemory.Book (InMemory.ctx "book")
           "Sheet1" (InMemory.start one_sheet)
           {| sheets := Some [ {| properties := {| sheetId := 1;
                                                   title := "Sheet1" |} |} ] |}
           one_sheet 1%Z
           (InMemory.http_error "Cannot remove all the sheets of a document")
           one_sheet eq_refl eq_refl eq_refl eq_refl).
Defined.

Lemma delete_sheet_not_found_iff_witness :
  fst (delete_sheet (InMemory.ctx "book") "Sheet3"
         (InMemory.start InMemory.two_sheets))
  = Returned (VStr "Sheet Sheet3 is already deleted or does not exist").
Proof.
  apply (proj2 (delete_sheet_not_found_iff InMemory.Book (InMemory.ctx "book")
                  "Sheet3" (InMemory.start InMemory.two_sheets)
                  {| sheets := Some [ {| properties := {| sheetId := 1;
                                                          title := "Sheet1" |} |};
                                      {| properties := {| sheetId := 2;
                                                          title := "Sheet2" |} |} ] |}
                  InMemory.two_sheets eq_refl)).
  simpl. intros sheet [<- | [<- | []]]; discriminate.
Defined.

Lemma delete_sheet_targets_titled_sheet_witness :
  exists added,
    trace (snd (delete_sheet (InMemory.ctx "book") "X"
                  (InMemory.start with_twins))) = added
    /\ forall id body,
        In (EvBatchUpdate id body) added ->
        id = "book"
        /\ exists sheet,
            In sheet [ {| properties := {| sheetId := 1; title := "A" |} |};
                       {| properties := {| sheetId := 7; title := "X" |} |};
                       {| properties := {| sheetId := 9; title := "X" |} |} ]
            /\ title (properties sheet) = "X"
            /\ body = delete_body (sheetId (properties sheet)).
Proof.
  exact (delete_sheet_targets_titled_sheet InMemory.Book (InMemory.ctx "book")
           "X" (InMemory.start with_twins)
           {| sheets := Some [ {| properties := {| sheetId := 1; title := "A" |} |};
                               {| properties := {| sheetId := 7; title := "X" |} |};
                               {| properties := {| sheetId := 9; title := "X" |} |} ] |}
           with_twins eq_refl).
Defined.

Lemma fallback_takes_exactly_Exception_witness :
  isinstance tls_failure Exception = true
  <-> add_sheet (Unavailable.ctx tls_failure) "Q1" Unavailable.start
      = (Returned (VStr "An error occurred: EOF occurred in violation of protocol"),
         {| remote := tt;
            trace := [EvPrint (add_banner "Q1");
                      EvBatchUpdate "book" (add_body "Q1")] |}).
Proof.
  exact (proj2 (fallback_takes_exactly_Exception unit
                  (Unavailable.ctx tls_failure) "Q1" Unavailable.start
                  tls_failure _ eq_refl)).
Defined.

Lemma delete_sheet_twice_witness :
  fst (delete_sheet (InMemory.ctx "book") "Sheet1"
         (InMemory.start InMemory.two_sheets))
  = Returned (VResponse {| spreadsheetId := "book"; replies := [emptyReply] |})
  /\ fst (delete_sheet (InMemory.ctx "book") "Sheet1"
            (snd (delete_sheet (InMemory.ctx "book") "Sheet1"
                    (InMemory.start InMemory.two_sheets))))
     = Returned (VStr "Sheet Sheet1 is already deleted or does not exist").
Proof.
  assert (Hdistinct : NoDup ["Sheet1"; "Sheet2"]).
  { constructor; [simpl; intros [H | []]; discriminate H |].
    constructor; [intros [] | constructor]. }
  destruct (delete_sheet_twice InMemory.Book (InMemory.ctx "book") "Sheet1"
              (InMemory.start InMemory.two_sheets)
              {| sheets := Some [ {| properties := {| sheetId := 1;
                                                      title := "Sheet1" |} |};
                                  {| properties := {| sheetId := 2;
                                                      title := "Sheet2" |} |} ] |}
              InMemory.two_sheets
              {| properties := {| sheetId := 1; title := "Sheet1" |} |}
              {| spreadsheetId := "book"; replies := [emptyReply] |}
              {| InMemory.book_id := "book";
                 InMemory.book_sheets := [ {| sheetId := 2; title := "Sheet2" |} ];
                 InMemory.next_id := 3 |}
              {| sheets := Some [ {| properties := {| sheetId := 2;
                                                      title := "Sheet2" |} |} ] |}
              {| InMemory.book_id := "book";
                 InMemory.book_sheets := [ {| sheetId := 2; title := "Sheet2" |} ];
                 InMemory.next_id := 3 |}
              eq_refl Hdistinct (or_introl eq_refl) eq_refl eq_refl eq_refl
              eq_refl)
    as (Hfirst & Hsecond & _).
  split; [exact Hfirst | exact Hsecond].
Defined.

(* ================================================================== *)
(** ** More on the text handed to the runtime *)

Lemma lstrip_starts_with_text (s : string) :
  lstrip s = EmptyString
  \/ exists c rest, lstrip s = String c rest /\ isspace c = false.
Proof.
  induction s as [| c s IH]; simpl; [now left |].
  destruct (isspace c) eqn:Hc; [exact IH |].
  right. now exists c, s.
Qed.

Lemma rstrip_keeps_text_head (c : ascii) (rest : string) :
  isspace c = false -> exists kept, rstrip (String c rest) = String c kept.
Proof.
  intros Hc. simpl. destruct (rstrip rest) as [| c' kept].
  - rewrite Hc. now exists EmptyString.
  - now exists (String c' kept).
Qed.

Lemma rstrip_idempotent (s : string) : rstrip (rstrip s) = rstrip s.
Proof.
  induction s as [| c s IH]; simpl; [reflexivity |].
  destruct (rstrip s) as [| c' kept] eqn:Hr.
  - destruct (isspace c) eqn:Hc; simpl; [reflexivity |].
    rewrite Hc. reflexivity.
  - cbn [rstrip] in *. rewrite IH. reflexivity.
Qed.

Lemma strip_is_trimmed (s : string) :
  lstrip (strip s) = strip s /\ rstrip (strip s) = strip s.
Proof.
  unfold strip. split; [| apply rstrip_idempotent].
  destruct (lstrip_starts_with_text s) as [-> | (c & rest & -> & Hc)];
    [reflexivity |].
  destruct (rstrip_keeps_text_head c rest Hc) as [kept ->].
  simpl. rewrite Hc. reflexivity.
Qed.

Lemma lstrip_of_blank (s : string) : blank s = true -> lstrip s = EmptyString.
Proof.
  induction s as [| c s IH]; simpl; [reflexivity |].
  intros H. apply andb_prop in H as [-> Hs]. now apply IH.
Qed.

Lemma space_is_not_e (c : ascii) :
  isspace c = true -> lower_char c <> "e"%char.
Proof.
  destruct c as [[] [] [] [] [] [] [] []]; vm_compute; intros H;
    first [discriminate H | intros H'; discriminate H'].
Qed.

Lemma blank_is_not_exit (s : string) : blank s = true -> is_exit s = false.
Proof.
  intros Hs. unfold is_exit. apply String.eqb_neq.
  destruct s as [| c s]; simpl; [discriminate |].
  simpl in Hs. apply andb_prop in Hs as [Hc _].
  intros [= He _]. exact (space_is_not_e c Hc He).
Qed.

(* ================================================================== *)
(** ** More on the session *)

Section SessionExtras.

Variables St W Message : Type.
Variable run_sync :
  string -> SheetsDependencies St -> option (list Message) ->
  W -> outcome (AgentRunResult Message) * W.
Variable str_SheetsResult : SheetsResult -> string.
Variable service : Resource St.

Implicit Types (prompt : string) (lines : list string)
  (response : AgentRunResult Message).

Lemma turn_on_exit prompt history (p : Process W) :
  is_exit prompt = true ->
  turn run_sync service prompt history p
  = (Raised (sys_exit "See you next time"), p).
Proof. unfold turn, is_exit. now intros ->. Qed.

Lemma turn_on_text prompt history (p : Process W) :
  is_exit prompt = false ->
  turn run_sync service prompt history p
  = let (r, w') := run_sync (strip prompt) (session_deps service) history
                     (runtime p) in
    (r, {| runtime := w'; stdout := stdout p |}).
Proof. unfold turn, is_exit. now intros ->. Qed.

Lemma loop_ends lines :
  forall response (p : Process W),
    (exists consumed ex,
        lines = (consumed ++ ex :: unread (loop run_sync service lines response p))%list
        /\ no_exit consumed = true /\ is_exit ex = true
        /\ reason (loop run_sync service lines response p)
           = sys_exit "See you next time")
    \/ (unread (loop run_sync service lines response p) = []
        /\ no_exit lines = true
        /\ reason (loop run_sync service lines response p) = end_of_input)
    \/ (exists consumed prompt history w w',
           lines = (consumed ++ prompt
                      :: unread (loop run_sync service lines response p))%list
           /\ no_exit consumed = true /\ is_exit prompt = false
           /\ run_sync (strip prompt) (session_deps service) history w
              = (Raised (reason (loop run_sync service lines response p)), w')).
Proof.
  induction lines as [| prompt rest IH]; intros response p.
  - right. left. repeat split.
  - cbn [loop]. destruct (is_exit prompt) eqn:Hexit.
    + rewrite (turn_on_exit _ _ _ Hexit). left.
      exists [], prompt. repeat split. exact Hexit.
    + rewrite (turn_on_text _ _ _ Hexit).
      destruct (run_sync (strip prompt) (session_deps service)
                  (Some (all_messages response))
                  (runtime (write "User: " p))) as [[answer | e] w'] eqn:Hrun.
      * match goal with
        | |- context [loop run_sync service rest answer ?q] =>
            destruct (IH answer q)
              as [(consumed & ex & Hl & Hc & Hx & Hr)
                 | [(Hu & Hn & Hr)
                   | (consumed & late & h & w0 & w1 & Hl & Hc & Hx & Hr)]]
        end.
        -- left. exists (prompt :: consumed), ex. repeat split; try assumption.
           ++ cbn [app]. f_equal. exact Hl.
           ++ unfold no_exit in *. cbn [forallb]. now rewrite Hexit.
        -- right. left. repeat split; try assumption.
           unfold no_exit in *. cbn [forallb]. now rewrite Hexit.
        -- right. right. exists (prompt :: consumed), late, h, w0, w1.
           repeat split; try assumption.
           ++ cbn [app]. f_equal. exact Hl.
           ++ unfold no_exit in *. cbn [forallb]. now rewrite Hexit.
      * right. right.
        exists [], prompt, (Some (all_messages response)),
          (runtime (write "User: " p)), w'.
        repeat split; assumption.
Qed.

(** X10. How a session can end.  Lines are read in order, and the process
    ends in one of three ways: at the first line that passes the exit test,
    by [sys.exit]; at the end of the input, by the [EOFError] of [input],
    when no line passed the test; or at a line where [run_sync] raised, by
    that exception, which nothing in the session catches.  The lines after
    that point are never read. *)
Theorem session_end_reasons lines (p : Process W) :
  (exists consumed ex,
      lines = (consumed ++ ex
                 :: unread (main run_sync str_SheetsResult service lines p))%list
      /\ no_exit consumed = true /\ is_exit ex = true
      /\ reason (main run_sync str_SheetsResult service lines p)
         = sys_exit "See you next time")
  \/ (unread (main run_sync str_SheetsResult service lines p) = []
      /\ no_exit lines = true
      /\ reason (main run_sync str_SheetsResult service lines p)
         = end_of_input)
  \/ (exists consumed prompt history w w',
         lines = (consumed ++ prompt
                    :: unread (main run_sync str_SheetsResult service lines p))%list
         /\ no_exit consumed = true /\ is_exit prompt = false
         /\ run_sync (strip prompt) (session_deps service) history w
            = (Raised (reason (main run_sync str_SheetsResult service lines p)),
               w')).
Proof.
  destruct lines as [| prompt rest].
  - right. left. repeat split.
  - cbn [main]. destruct (is_exit prompt) eqn:Hexit.
    + rewrite (turn_on_exit _ _ _ Hexit). left.
      exists [], prompt. repeat split. exact Hexit.
    + rewrite (turn_on_text _ _ _ Hexit).
      destruct (run_sync (strip prompt) (session_deps service) None
                  (runtime (write "User: " p))) as [[answer | e] w'] eqn:Hrun.
      * match goal with
        | |- context [loop run_sync service rest answer ?q] =>
            destruct (loop_ends rest answer q)
              as [(consumed & ex & Hl & Hc & Hx & Hr)
                 | [(Hu & Hn & Hr)
                   | (consumed & late & h & w0 & w1 & Hl & Hc & Hx & Hr)]]
        end.
        -- left. exists (prompt :: consumed), ex. repeat split; try assumption.
           ++ cbn [app]. f_equal. exact Hl.
           ++ unfold no_exit in *. cbn [forallb]. now rewrite Hexit.
        -- right. left. repeat split; try assumption.
           unfold no_exit in *. cbn [forallb]. now rewrite Hexit.
        -- right. right. exists (prompt :: consumed), late, h, w0, w1.
           repeat split; try assumption.
           ++ cbn [app]. f_equal. exact Hl.
           ++ unfold no_exit in *. cbn [forallb]. now rewrite Hexit.
      * right. right.
        exists [], prompt, None, (runtime (write "User: " p)), w'.
        repeat split; assumption.
Qed.

Lemma loop_with_total_runtime :
  (forall prompt d history w,
      exists r w', run_sync prompt d history w = (Returned r, w')) ->
  forall lines response (p : Process W),
    (no_exit lines = true ->
     reason (loop run_sync service lines response p) = end_of_input
     /\ unread (loop run_sync service lines response p) = [])
    /\ (forall ex rest,
           no_exit lines = true -> is_exit ex = true ->
           reason (loop run_sync service (lines ++ ex :: rest) response p)
           = sys_exit "See you next time"
           /\ unread (loop run_sync service (lines ++ ex :: rest) response p)
              = rest).
Proof.
  intros Htotal. induction lines as [| prompt more IH]; intros response p.
  - split; [intros _; split; reflexivity |].
    intros ex rest _ Hex. cbn [app loop].
    rewrite (turn_on_exit _ _ _ Hex). split; reflexivity.
  - assert (Hstep : no_exit (prompt :: more) = true ->
                    is_exit prompt = false /\ no_exit more = true).
    { unfold no_exit. cbn [forallb]. intros H.
      apply andb_prop in H as [H1 H2]. split; [| exact H2].
      now apply negb_true_iff in H1. }
    split.
    + intros Hno. destruct (Hstep Hno) as [Hp Hmore].
      cbn [loop]. rewrite (turn_on_text _ _ _ Hp).
      destruct (Htotal (strip prompt) (session_deps service)
                  (Some (all_messages response))
                  (runtime (write "User: " p))) as (r & w' & ->).
      now apply IH.
    + intros ex rest Hno Hex. destruct (Hstep Hno) as [Hp Hmore].
      cbn [app loop]. rewrite (turn_on_text _ _ _ Hp).
      destruct (Htotal (strip prompt) (session_deps service)
                  (Some (all_messages response))
                  (runtime (write "User: " p))) as (r & w' & ->).
      now apply IH.
Qed.

(** X11. With a runtime whose runs always return, the session goes on
    until the first line that passes the exit test and ends there by
    [sys.exit], leaving the lines after it unread; when no line passes the
    test it reads the whole input and ends by the [EOFError] of [input]. *)
Theorem session_runs_until_exit_or_end_of_input :
  (forall prompt d history w,
      exists r w', run_sync prompt d history w = (Returned r, w')) ->
  (forall before ex rest (p : Process W),
      no_exit before = true -> is_exit ex = true ->
      reason (main run_sync str_SheetsResult service (before ++ ex :: rest) p)
      = sys_exit "See you next time"
      /\ unread (main run_sync str_SheetsResult service
                   (before ++ ex :: rest) p) = rest)
  /\ (forall lines (p : Process W),
         no_exit lines = true ->
         reason (main run_sync str_SheetsResult service lines p) = end_of_input
         /\ unread (main run_sync str_SheetsResult service lines p) = []).
Proof.
  intros Htotal.
  assert (Hstep : forall prompt more,
             no_exit (prompt :: more) = true ->
             is_exit prompt = false /\ no_exit more = true).
  { intros prompt more. unfold no_exit. cbn [forallb]. intros H.
    apply andb_prop in H as [H1 H2]. split; [| exact H2].
    now apply negb_true_iff in H1. }
  split.
  - intros [| prompt more] ex rest p Hno Hex.
    + cbn [app main]. rewrite (turn_on_exit _ _ _ Hex). split; reflexivity.
    + destruct (Hstep _ _ Hno) as [Hp Hmore].
      cbn [app main]. rewrite (turn_on_text _ _ _ Hp).
      destruct (Htotal (strip prompt) (session_deps service) None
                  (runtime (write "User: " p))) as (r & w' & ->).
      now apply (loop_with_total_runtime Htotal).
  - intros [| prompt more] p Hno; [split; reflexivity |].
    destruct (Hstep _ _ Hno) as [Hp Hmore].
    cbn [main]. rewrite (turn_on_text _ _ _ Hp).
    destruct (Htotal (strip prompt) (session_deps service) None
                (runtime (write "User: " p))) as (r & w' & ->).
    now apply (loop_with_total_runtime Htotal).
Qed.

(** X12. The text a turn hands to [run_sync] is the line without the
    whitespace at its two ends: it never begins or ends with whitespace,
    whatever the line was. *)
Theorem turn_hands_trimmed_text prompt history (p : Process W) :
  is_exit prompt = false ->
  turn run_sync service prompt history p
  = (let (r, w') := run_sync (strip prompt) (session_deps service) history
                      (runtime p) in
     (r, {| runtime := w'; stdout := stdout p |}))
  /\ lstrip (strip prompt) = strip prompt
  /\ rstrip (strip prompt) = strip prompt.
Proof.
  intros Hp. split; [now apply turn_on_text | apply strip_is_trimmed].
Qed.

(** X13. An empty line, or one of whitespace only, is not skipped: it is a
    turn like any other, run on the empty text. *)
Theorem blank_line_is_a_turn prompt history (p : Process W) :
  blank prompt = true ->
  turn run_sync service prompt history p
  = let (r, w') := run_sync EmptyString (session_deps service) history
                     (runtime p) in
    (r, {| runtime := w'; stdout := stdout p |}).
Proof.
  intros Hb. rewrite (turn_on_text _ _ _ (blank_is_not_exit _ Hb)).
  unfold strip. rewrite (lstrip_of_blank _ Hb). reflexivity.
Qed.

End SessionExtras.

(* ================================================================== *)
(** ** What a session hands to the runtime and prints *)

Section SessionObserved.

Variables St W Message : Type.
Variable run_sync :
  string -> SheetsDependencies St -> option (list Message) ->
  W -> outcome (AgentRunResult Message) * W.
Variable str_SheetsResult : SheetsResult -> string.
Variable service : Resource St.

Implicit Types (prompt : string) (lines : list string)
  (response : AgentRunResult Message)
  (p : Process (W * list (Call St Message))).

Lemma turn_observed prompt history p :
  is_exit prompt = false ->
  turn (logged run_sync) service prompt history p
  = let (r, w') := run_sync (strip prompt) (session_deps service) history
                     (fst (runtime p)) in
    (r, {| runtime :=
             (w', (snd (runtime p)
                     ++ [ {| call_prompt := strip prompt;
                             call_deps := session_deps service;
                             call_history := history;
                             call_outcome := r |} ])%list);
           stdout := stdout p |}).
Proof.
  intros Hexit. rewrite (turn_on_text _ _ _ _ _ _ _ _ Hexit). unfold logged.
  destruct (run_sync (strip prompt) (session_deps service) history
              (fst (runtime p))) as [r w']. reflexivity.
Qed.

Lemma loop_observed lines :
  forall response p,
  exists calls : list (Call St Message),
    snd (runtime (final (loop (logged run_sync) service lines response p)))
    = (snd (runtime p) ++ calls)%list
    /\ threaded (Some (all_messages response)) calls
    /\ map (@call_prompt St Message) calls
       = map strip (firstn (List.length calls) lines)
    /\ no_exit (firstn (List.length calls) lines) = true
    /\ Forall (fun c => call_deps c = session_deps service) calls
    /\ stdout (final (loop (logged run_sync) service lines response p))
       = (stdout p ++ transcript str_SheetsResult false calls)%list.
Proof.
  induction lines as [| prompt rest IH]; intros response p.
  - exists []. cbn. rewrite app_nil_r. repeat split. constructor.
  - cbn [loop]. destruct (is_exit prompt) eqn:Hexit.
    + rewrite (turn_on_exit _ _ _ _ _ _ _ _ Hexit).
      exists []. cbn. rewrite app_nil_r. repeat split. constructor.
    + rewrite (turn_observed _ _ _ Hexit).
      cbn [runtime write fst snd stdout].
      destruct (run_sync (strip prompt) (session_deps service)
                  (Some (all_messages response)) (fst (runtime p)))
        as [[answer | e] w'] eqn:Hrun; cbn [runtime write fst snd stdout].
      * match goal with
        | |- context [loop (logged run_sync) service rest answer ?q] =>
            destruct (IH answer q)
              as (calls & Hlog & Hthread & Hprompts & Hno & Hdeps & Hout)
        end.
        exists ({| call_prompt := strip prompt;
                   call_deps := session_deps service;
                   call_history := Some (all_messages response);
                   call_outcome := Returned answer |} :: calls).
        cbn [runtime print_line write fst snd stdout] in Hlog, Hout.
        repeat split.
        -- rewrite Hlog, <- app_assoc. reflexivity.
        -- exact Hthread.
        -- cbn [map List.length firstn]. now rewrite Hprompts.
        -- cbn [List.length firstn]. unfold no_exit in *. cbn [forallb].
           now rewrite Hexit.
        -- constructor; [reflexivity | exact Hdeps].
        -- rewrite Hout. cbn [transcript call_outcome].
           unfold reply_line. rewrite <- !app_assoc. reflexivity.
      * exists [ {| call_prompt := strip prompt;
                    call_deps := session_deps service;
                    call_history := Some (all_messages response);
                    call_outcome := Raised e |} ].
        cbn. repeat split.
        -- unfold is_exit in Hexit. unfold no_exit, is_exit. cbn.
           now rewrite Hexit.
        -- repeat constructor.
Qed.

Lemma main_observed lines p :
  exists calls : list (Call St Message),
    snd (runtime (final (main (logged run_sync) str_SheetsResult service lines p)))
    = (snd (runtime p) ++ calls)%list
    /\ threaded None calls
    /\ map (@call_prompt St Message) calls
       = map strip (firstn (List.length calls) lines)
    /\ no_exit (firstn (List.length calls) lines) = true
    /\ Forall (fun c => call_deps c = session_deps service) calls
    /\ stdout (final (main (logged run_sync) str_SheetsResult service lines p))
       = (stdout p ++ transcript str_SheetsResult true calls)%list.
Proof.
  destruct lines as [| prompt rest].
  - exists []. cbn. rewrite app_nil_r. repeat split. constructor.
  - cbn [main]. destruct (is_exit prompt) eqn:Hexit.
    + rewrite (turn_on_exit _ _ _ _ _ _ _ _ Hexit).
      exists []. cbn. rewrite app_nil_r. repeat split. constructor.
    + rewrite (turn_observed _ _ _ Hexit).
      cbn [runtime write fst snd stdout].
      destruct (run_sync (strip prompt) (session_deps service) None
                  (fst (runtime p))) as [[answer | e] w'] eqn:Hrun;
        cbn [runtime write fst snd stdout].
      * match goal with
        | |- context [loop (logged run_sync) service rest answer ?q] =>
            destruct (loop_observed rest answer q)
              as (calls & Hlog & Hthread & Hprompts & Hno & Hdeps & Hout)
        end.
        exists ({| call_prompt := strip prompt;
                   call_deps := session_deps service;
                   call_history := None;
                   call_outcome := Returned answer |} :: calls).
        cbn [runtime print_line write fst snd stdout] in Hlog, Hout.
        repeat split.
        -- rewrite Hlog, <- app_assoc. reflexivity.
        -- exact Hthread.
        -- cbn [map List.length firstn]. now rewrite Hprompts.
        -- cbn [List.length firstn]. unfold no_exit in *. cbn [forallb].
           now rewrite Hexit.
        -- constructor; [reflexivity | exact Hdeps].
        -- rewrite Hout. cbn [transcript call_outcome].
           unfold reply_line. rewrite <- !app_assoc. reflexivity.
      * exists [ {| call_prompt := strip prompt;
                    call_deps := session_deps service;
                    call_history := None;
                    call_outcome := Raised e |} ].
        cbn. repeat split.
        -- unfold is_exit in Hexit. unfold no_exit, is_exit. cbn.
           now rewrite Hexit.
        -- repeat constructor.
Qed.

End SessionObserved.

Section SessionObservedFacts.

Variables St W Message : Type.
Variable run_sync :
  string -> SheetsDependencies St -> option (list Message) ->
  W -> outcome (AgentRunResult Message) * W.
Variable str_SheetsResult : SheetsResult -> string.
Variable service : Resource St.

(** X14. What a session hands to the runtime.  The runs are on the first
    lines of the input, stripped, one run per line and in order, none
    of them a line that passes the exit test; the first run gets no message
    history and each later one the messages of the run before it; nothing
    is run after a run that raised; and every run gets the same
    dependencies, the service with the fixed spreadsheet identifier. *)
Theorem session_threads_history (lines : list string)
    (p : Process (W * list (Call St Message))) :
  exists calls : list (Call St Message),
    snd (runtime (final (main (logged run_sync) str_SheetsResult service
                           lines p)))
    = (snd (runtime p) ++ calls)%list
    /\ threaded None calls
    /\ map (@call_prompt St Message) calls
       = map strip (firstn (List.length calls) lines)
    /\ no_exit (firstn (List.length calls) lines) = true
    /\ Forall (fun c => call_deps c = session_deps service) calls
    /\ Forall (fun c => spreadsheet_id (call_deps c) = SPREADSHEET_ID) calls.
Proof.
  destruct (main_observed St W Message run_sync str_SheetsResult service lines p)
    as (calls & Hlog & Hthread & Hprompts & Hno & Hdeps & _).
  exists calls. repeat split; try assumption.
  apply Forall_impl with (2 := Hdeps). now intros c ->.
Qed.


End SessionObservedFacts.

Lemma session_runs_until_exit_or_end_of_input_witness :
  reason (main Scripted.run_sync Scripted.str_SheetsResult
            (Unavailable.service tls_failure)
            ["add a sheet"; " list "; "Exit"; "never read"] Scripted.start)
  = sys_exit "See you next time"
  /\ unread (main Scripted.run_sync Scripted.str_SheetsResult
               (Unavailable.service tls_failure)
               ["add a sheet"; " list "; "Exit"; "never read"] Scripted.start)
     = ["never read"].
Proof.
  assert (Htotal : forall prompt d history w,
             exists r w',
               Scripted.run_sync prompt d history w = (Returned r, w')).
  { intros prompt d history w. eexists. eexists. reflexivity. }
  exact (proj1 (session_runs_until_exit_or_end_of_input unit (list string)
                  string Scripted.run_sync Scripted.str_SheetsResult
                  (Unavailable.service tls_failure) Htotal)
           ["add a sheet"; " list "] "Exit" ["never read"] Scripted.start
           eq_refl eq_refl).
Defined.

Lemma turn_hands_trimmed_text_witness :
  turn Scripted.run_sync (Unavailable.service tls_failure) "  list sheets "
    None Scripted.start
  = (Returned Scripted.answer, {| runtime := ["list sheets"]; stdout := [] |}).
Proof.
  exact (proj1 (turn_hands_trimmed_text unit (list string) string
                  Scripted.run_sync (Unavailable.service tls_failure)
                  "  list sheets " None Scripted.start eq_refl)).
Defined.

Lemma blank_line_is_a_turn_witness :
  turn Scripted.run_sync (Unavailable.service tls_failure) "   " None
    Scripted.start
  = (Returned Scripted.answer, {| runtime := [EmptyString]; stdout := [] |}).
Proof.
  exact (blank_line_is_a_turn unit (list string) string
           Scripted.run_sync (Unavailable.service tls_failure)
           "   " None Scripted.start eq_refl).
Defined.
